(** * python-yubico: the YubiKey NEO record encoders, the USB mode / product-ID
      catalogue and the NEO capability predicates.

    Shallow embedding of
      - [yubico/yubikey_neo_usb_hid.py] (URI identifier table, NDEF record,
        DEVICE_CONFIG record, capabilities),
      - [yubico/ykdef.py] ([MODE.all], [PID.all]).

    Python [bytes] are lists of [Byte.byte]; Python [int]s are [Z]; a Python
    [str] is the list of its code points; a raised exception is the [Raise]
    branch of [result]; Python [set]s of integers are [gset Z]. *)

From Stdlib Require Import ZArith NArith Strings.String Strings.Byte.
From Stdlib Require Import Strings.Ascii.
From Stdlib Require Strings.HexString.
From stdpp Require Import base decidable option list numbers gmap.

Local Open Scope Z_scope.

(** ** Bytes, strings and exceptions *)

Abbreviation byte := Byte.byte.
Abbreviation bytes := (list Byte.byte).

(** A Python [str], as its sequence of Unicode code points. *)
Abbreviation str := (list N).

Definition byte_to_Z (b : byte) : Z := Z.of_N (Byte.to_N b).

(** The byte of value [n], when [n] is in [range(256)]. *)
Definition byte_of_Z (n : Z) : option byte :=
  if decide (0 ≤ n) then Byte.of_N (Z.to_N n) else None.

(** A string literal of the source with ASCII content, as a [str]. *)
Definition str_of (s : string) : str := Byte.to_N <$> list_byte_of_string s.

(** A bytes literal of the source ([b'en']). *)
Definition bytes_of (s : string) : bytes := list_byte_of_string s.

(** [b.decode('latin-1')]: byte [k] is code point [k]. *)
Definition decode_latin1 (b : bytes) : str := Byte.to_N <$> b.

(** [c.lower()] for a code point of the Latin-1 block, the only ones
    [decode_latin1] produces: A-Z and the accented capitals U+00C0..U+00DE
    (without the multiplication sign U+00D7) move up by 32, every other
    character of the block is its own lower case. *)
Definition lower_cp (c : N) : N :=
  if ((65 <=? c) && (c <=? 90) ||
      (192 <=? c) && (c <=? 222) && negb (c =? 215))%N
  then (c + 32)%N else c.

Definition str_lower (s : str) : str := lower_cp <$> s.

(** [b.ljust(width, fill)] *)
Definition ljust (width : nat) (fill : byte) (b : bytes) : bytes :=
  b ++ replicate (width - length b)%nat fill.

Inductive exn : Type :=
  | YubiKeyNEO_USBHIDError (msg : string)
  | struct_error
  | ValueError.

Inductive result (A : Type) : Type :=
  | Ok (a : A)
  | Raise (e : exn).
Arguments Ok {A} a.
Arguments Raise {A} e.

#[global] Instance result_ret : MRet result := @Ok.
#[global] Instance result_bind : MBind result := λ A B f m,
  match m with
  | Ok a => f a
  | Raise e => Raise e
  end.

(** The two errors of the NDEF class, by the names the specification uses. *)
Definition PayloadTooLarge : exn :=
  YubiKeyNEO_USBHIDError "NDEF payload too long".
Definition InvalidConfiguration : exn :=
  YubiKeyNEO_USBHIDError "Bad or conflicting NDEF type specified".

(** Modelled from the spec: [yubico_util.chr_byte] is not among the sources.
    The specification has it emit the "one-byte code" / "one-byte status
    field" of the given number; a number that is no byte value has no such
    encoding, and both [chr] and [bytes([n])] raise [ValueError] on it. *)
Definition chr_byte (n : Z) : result bytes :=
  match byte_of_Z n with
  | Some b => Ok [b]
  | None => Raise ValueError
  end.

(** ** Constants of [yubikey_neo_usb_hid.py] *)

Definition _SLOT_NDEF : Z := 0x08.
Definition _ACC_CODE_SIZE : nat := 6.
Definition _NDEF_DATA_SIZE : nat := 54.
Definition _SLOT_DEVICE_CONFIG : Z := 0x11.
Definition _MODE_OTP : Z := 0x00.
Definition _NDEF_URI_TYPE : Z := 85.  (* ord('U') *)
Definition _NDEF_TEXT_TYPE : Z := 84. (* ord('T') *)

(** From nfcforum-ts-rtd-uri-1.0.pdf *)
Definition uri_identifiers : list (Z * str) :=
  [ (0x01, str_of "http://www.");
    (0x02, str_of "https://www.");
    (0x03, str_of "http://");
    (0x04, str_of "https://");
    (0x05, str_of "tel:");
    (0x06, str_of "mailto:");
    (0x07, str_of "ftp://anonymous:anonymous@");
    (0x08, str_of "ftp://ftp.");
    (0x09, str_of "ftps://");
    (0x0a, str_of "sftp://");
    (0x0b, str_of "smb://");
    (0x0c, str_of "nfs://");
    (0x0d, str_of "ftp://");
    (0x0e, str_of "dav://");
    (0x0f, str_of "news:");
    (0x10, str_of "telnet://");
    (0x11, str_of "imap:");
    (0x12, str_of "rtsp://");
    (0x13, str_of "urn:");
    (0x14, str_of "pop:");
    (0x15, str_of "sip:");
    (0x16, str_of "sips:");
    (0x17, str_of "tftp:");
    (0x18, str_of "btspp://");
    (0x19, str_of "btl2cap://");
    (0x1a, str_of "btgoep://");
    (0x1b, str_of "tcpobex://");
    (0x1c, str_of "irdaobex://");
    (0x1d, str_of "file://");
    (0x1e, str_of "urn:epc:id:");
    (0x1f, str_of "urn:epc:tag:");
    (0x20, str_of "urn:epc:pat:");
    (0x21, str_of "urn:epc:raw:");
    (0x22, str_of "urn:epc:");
    (0x23, str_of "urn:nfc:") ].

(** ** [struct.pack], for the little-endian formats the records use

    Python's [struct.pack] with byte order [<] (standard sizes, no padding)
    and the format characters [B] (unsigned char), [H] (unsigned short) and
    [<n>s] (bytes, cut or zero-filled to [n]).  A number outside the range of
    its field, an argument of the wrong kind and a wrong number of arguments
    raise [struct.error]. *)

Inductive fmt_item : Type :=
  | fmt_B
  | fmt_H
  | fmt_s (n : nat).

Inductive pack_arg : Type :=
  | arg_int (n : Z)
  | arg_bytes (b : bytes).

Definition pack_item (f : fmt_item) (a : pack_arg) : result bytes :=
  match f, a with
  | fmt_B, arg_int n =>
      match byte_of_Z n with
      | Some b => Ok [b]
      | None => Raise struct_error
      end
  | fmt_H, arg_int n =>
      if decide (0 ≤ n < 65536) then
        match byte_of_Z (n `mod` 256), byte_of_Z (n `div` 256) with
        | Some lo, Some hi => Ok [lo; hi]
        | _, _ => Raise struct_error
        end
      else Raise struct_error
  | fmt_s k, arg_bytes b => Ok (take k b ++ replicate (k - length b) "000"%byte)
  | _, _ => Raise struct_error
  end.

Fixpoint struct_pack_le (fmt : list fmt_item) (args : list pack_arg)
  : result bytes :=
  match fmt, args with
  | [], [] => Ok []
  | f :: fmt', a :: args' =>
      field ← pack_item f a;
      rest ← struct_pack_le fmt' args';
      mret (field ++ rest)
  | _, _ => Raise struct_error
  end.

(** The width of a field; a format is as wide as its fields together. *)
Definition fmt_size (f : fmt_item) : nat :=
  match f with
  | fmt_B => 1
  | fmt_H => 2
  | fmt_s n => n
  end.

(** Modelled from the spec: [yubikey_frame.YubiKeyFrame] is not among the
    sources.  The specification's Frame is "the command/slot code plus a
    payload", owning "no state beyond their two fields". *)
Record YubiKeyFrame : Type := {
  command : Z;
  payload : bytes;
}.

(** A Python value, as far as [YubiKeyNEO_NDEF.type] tells them apart in its
    [other] argument: [None], an [int] (and only an [int]: [type(True)] is
    [bool]), or something else. *)
Inductive pyval : Type :=
  | PyNone
  | PyInt (n : Z)
  | PyBool (b : bool)
  | PyBytes (b : bytes)
  | PyStr (s : str).

(** ** class [YubiKeyNEO_NDEF] *)

Module YubiKeyNEO_NDEF.

Record t : Type := {
  ndef_type : Z;
  ndef_str : bytes;
  access_code : bytes;
  ndef_uri_rt : Z;
  ndef_text_lang : bytes;
  ndef_text_enc : str;
}.

(** The class attributes are the defaults of the instance attributes. *)
Definition __init__ (data : bytes) (access_code : option bytes) : t :=
  {| ndef_type := _NDEF_URI_TYPE;
     ndef_str := data;
     access_code :=
       match access_code with
       | Some code => code
       | None => replicate _ACC_CODE_SIZE "000"%byte
       end;
     ndef_uri_rt := 0x0;
     ndef_text_lang := bytes_of "en";
     ndef_text_enc := str_of "UTF-8" |}.

(** [language] is the language tag as a bytes object, like the class
    attribute [b'en'].  The defaults of the method are not part of the
    model: its default tag is the str ['en'], which is a bytes object on
    Python 2 only. *)
Definition text (encoding : str) (language : bytes) (self : t) : t :=
  {| ndef_type := _NDEF_TEXT_TYPE;
     ndef_str := ndef_str self;
     access_code := access_code self;
     ndef_uri_rt := ndef_uri_rt self;
     ndef_text_lang := language;
     ndef_text_enc := encoding |}.

Definition set_ndef_type (ty : Z) (self : t) : t :=
  {| ndef_type := ty;
     ndef_str := ndef_str self;
     access_code := access_code self;
     ndef_uri_rt := ndef_uri_rt self;
     ndef_text_lang := ndef_text_lang self;
     ndef_text_enc := ndef_text_enc self |}.

(** [type] returns [self] or raises; the second component is the object
    as the call leaves it. *)
Definition type (url text : bool) (other : pyval) (self : t)
  : result t * t :=
  match url, text, other with
  | true, false, PyNone =>
      let self := set_ndef_type _NDEF_URI_TYPE self in (Ok self, self)
  | false, true, PyNone =>
      let self := set_ndef_type _NDEF_TEXT_TYPE self in (Ok self, self)
  | false, false, PyInt other =>
      let self := set_ndef_type other self in (Ok self, self)
  | _, _, _ => (Raise InvalidConfiguration, self)
  end.

(** The [for (code, prefix) in uri_identifiers: ... break] loop: the pair
    of [t] and [data] it leaves behind, [(0x0, data)] when it runs off the
    end of the table. *)
Fixpoint uri_scan (table : list (Z * str)) (data : bytes) : Z * bytes :=
  match table with
  | [] => (0x0, data)
  | (code, prefix) :: table' =>
      if decide (str_lower (decode_latin1 (take (length prefix) data))
                 = prefix)
      then (code, drop (length prefix) data)
      else uri_scan table' data
  end.

Definition _encode_ndef_uri_type (data : bytes) : result bytes :=
  let '(t, data) := uri_scan uri_identifiers data in
  b ← chr_byte t;
  mret (b ++ data).

Definition _encode_ndef_text_params (self : t) (data : bytes)
  : result bytes :=
  let status := Z.of_nat (length (ndef_text_lang self)) in
  let status :=
    if decide (ndef_text_enc self = str_of "UTF16")
    then Z.land status 0x80 (* 0b10000000 *)
    else status in
  b ← chr_byte status;
  mret (b ++ ndef_text_lang self ++ data).

(** The head of [to_string], up to the length check: the data after the
    step that belongs to the type of the record. *)
Definition transform (self : t) : result bytes :=
  let data := ndef_str self in
  if decide (ndef_type self = _NDEF_URI_TYPE) then
    _encode_ndef_uri_type data
  else if decide (ndef_type self = _NDEF_TEXT_TYPE) then
    _encode_ndef_text_params self data
  else mret data.

Definition to_string (self : t) : result bytes :=
  data ← transform self;
  if decide (_NDEF_DATA_SIZE < length data)%nat then Raise PayloadTooLarge
  else
    struct_pack_le
      [fmt_B; fmt_B; fmt_s _NDEF_DATA_SIZE; fmt_s _ACC_CODE_SIZE]
      [arg_int (Z.of_nat (length data));
       arg_int (ndef_type self);
       arg_bytes (ljust _NDEF_DATA_SIZE "000"%byte data);
       arg_bytes (access_code self)].

(** [slot = None] is the call without argument. *)
Definition to_frame (slot : option Z) (self : t) : result YubiKeyFrame :=
  data ← to_string self;
  let payload := ljust 64 "000"%byte data in
  mret {| command := default _SLOT_NDEF slot; payload := payload |}.

End YubiKeyNEO_NDEF.

(** *** What the specification calls a case-insensitive prefix match

    Independent of [uri_scan]: both sides are case-folded (A-Z onto a-z) and
    compared; the first table entry that matches is found with [find]. *)

Definition ascii_casefold (c : N) : N :=
  if ((65 <=? c) && (c <=? 90))%N then (c + 32)%N else c.

Definition ci_startswith (prefix : str) (payload : bytes) : bool :=
  bool_decide (ascii_casefold <$> decode_latin1 (take (length prefix) payload)
               = ascii_casefold <$> prefix).

Definition first_match_in (table : list (Z * str)) (payload : bytes)
  : option (Z * str) :=
  List.find (λ entry, ci_startswith entry.2 payload) table.

Definition first_match : bytes → option (Z * str) :=
  first_match_in uri_identifiers.

(** A character of a table prefix: ASCII, and not a capital letter. *)
Definition lowercase_ascii (c : N) : Prop :=
  (c < 128)%N ∧ ¬ (65 ≤ c ≤ 90)%N.

#[global] Instance lowercase_ascii_dec c : Decision (lowercase_ascii c).
Proof. unfold lowercase_ascii. apply _. Defined.

Definition well_formed_entry (entry : Z * str) : Prop :=
  0 ≤ entry.1 < 256 ∧ Forall lowercase_ascii entry.2.

#[global] Instance well_formed_entry_dec e : Decision (well_formed_entry e).
Proof. unfold well_formed_entry. apply _. Defined.

(** ** class [YubiKeyNEO_DEVICE_CONFIG] *)

Module YubiKeyNEO_DEVICE_CONFIG.

Record t : Type := {
  _mode : Z;
  _cr_timeout : Z;
  _auto_eject_time : Z;
}.

(** [mode = None] is the call without argument. *)
Definition __init__ (mode : option Z) : t :=
  {| _mode := default _MODE_OTP mode;
     _cr_timeout := 0;
     _auto_eject_time := 0 |}.

Definition cr_timeout (timeout : Z) (self : t) : t :=
  {| _mode := _mode self;
     _cr_timeout := timeout;
     _auto_eject_time := _auto_eject_time self |}.

Definition auto_eject_time (auto_eject_time : Z) (self : t) : t :=
  {| _mode := _mode self;
     _cr_timeout := _cr_timeout self;
     _auto_eject_time := auto_eject_time |}.

Definition to_string (self : t) : result bytes :=
  struct_pack_le [fmt_B; fmt_B; fmt_H]
    [arg_int (_mode self);
     arg_int (_cr_timeout self);
     arg_int (_auto_eject_time self)].

Definition to_frame (slot : option Z) (self : t) : result YubiKeyFrame :=
  data ← to_string self;
  let payload := ljust 64 "000"%byte data in
  mret {| command := default _SLOT_DEVICE_CONFIG slot; payload := payload |}.

End YubiKeyNEO_DEVICE_CONFIG.

(** ** class [YubiKeyNEO_USBHIDCapabilities] *)

(** Comparison of two Python tuples of integers: the first position where
    they differ decides, a proper prefix is smaller. *)
Fixpoint tuple_compare (a b : list Z) : comparison :=
  match a, b with
  | [], [] => Eq
  | [], _ :: _ => Lt
  | _ :: _, [] => Gt
  | x :: a', y :: b' =>
      match x ?= y with
      | Eq => tuple_compare a' b'
      | c => c
      end
  end.

Definition tuple_lt (a b : list Z) : bool :=
  match tuple_compare a b with Lt => true | _ => false end.

Definition tuple_ge (a b : list Z) : bool := negb (tuple_lt a b).

Module YubiKeyNEO_USBHIDCapabilities.

(** [self.version], set by the base class, is the version tuple of the
    device. *)
Record t : Type := { version : list Z }.

Definition have_challenge_response (self : t) (mode : Z) : bool :=
  tuple_ge (version self) [3; 0; 0].

Definition have_configuration_slot (self : t) (slot : Z) : bool :=
  if tuple_lt (version self) [3; 0; 0] then bool_decide (slot = 1)
  else bool_decide (slot ∈ [1; 2]).

Definition have_nfc_ndef (self : t) : bool := true.

Definition have_device_config (self : t) : bool :=
  tuple_ge (version self) [3; 0; 0].

End YubiKeyNEO_USBHIDCapabilities.

(** ** [ykdef.py]: USB modes and product IDs *)

Module MODE.

Definition OTP : Z := 0x00.
Definition CCID : Z := 0x01.
Definition OTP_CCID : Z := 0x02.
Definition U2F : Z := 0x03.
Definition OTP_U2F : Z := 0x04.
Definition U2F_CCID : Z := 0x05.
Definition OTP_U2F_CCID : Z := 0x06.
Definition MASK : Z := 0x07.
Definition FLAG_EJECT : Z := 0x80.

Definition all (otp ccid u2f : bool) : gset Z :=
  let modes : gset Z :=
    {[ OTP; CCID; OTP_CCID; U2F; OTP_U2F; U2F_CCID; OTP_U2F_CCID ]} in
  let modes :=
    if otp then modes ∖ {[ CCID; U2F; U2F_CCID ]} else modes in
  let modes :=
    if ccid then modes ∖ {[ OTP; U2F; OTP_U2F ]} else modes in
  let modes :=
    if u2f then modes ∖ {[ OTP; CCID; OTP_CCID ]} else modes in
  modes.

End MODE.

Module PID.

Definition YUBIKEY : Z := 0x0010.
Definition NEO_OTP : Z := 0x0110.
Definition NEO_OTP_CCID : Z := 0x0111.
Definition NEO_CCID : Z := 0x0112.
Definition NEO_U2F : Z := 0x0113.
Definition NEO_OTP_U2F : Z := 0x0114.
Definition NEO_U2F_CCID : Z := 0x0115.
Definition NEO_OTP_U2F_CCID : Z := 0x0116.
Definition NEO_SKY : Z := 0x0120.
Definition YK4_OTP : Z := 0x0401.
Definition YK4_U2F : Z := 0x0402.
Definition YK4_OTP_U2F : Z := 0x0403.
Definition YK4_CCID : Z := 0x0404.
Definition YK4_OTP_CCID : Z := 0x0405.
Definition YK4_U2F_CCID : Z := 0x0406.
Definition YK4_OTP_U2F_CCID : Z := 0x0407.
Definition PLUS_U2F_OTP : Z := 0x0410.

Definition all (otp ccid u2f : bool) : gset Z :=
  let pids : gset Z :=
    {[ YUBIKEY; NEO_OTP; NEO_OTP_CCID; NEO_CCID; NEO_U2F; NEO_OTP_U2F;
       NEO_U2F_CCID; NEO_OTP_U2F_CCID; NEO_SKY; YK4_OTP; YK4_U2F;
       YK4_OTP_U2F; YK4_CCID; YK4_OTP_CCID; YK4_U2F_CCID;
       YK4_OTP_U2F_CCID; PLUS_U2F_OTP ]} in
  let pids :=
    if otp then
      pids ∖ {[ NEO_CCID; NEO_U2F; NEO_U2F_CCID; NEO_SKY; YK4_U2F;
                YK4_CCID; YK4_U2F_CCID ]}
    else pids in
  let pids :=
    if ccid then
      pids ∖ {[ YUBIKEY; NEO_OTP; NEO_U2F; NEO_OTP_U2F; NEO_SKY; YK4_OTP;
                YK4_U2F; YK4_OTP_U2F; PLUS_U2F_OTP ]}
    else pids in
  let pids :=
    if u2f then
      pids ∖ {[ YUBIKEY; NEO_OTP; NEO_OTP_CCID; NEO_CCID; YK4_OTP;
                YK4_CCID; YK4_OTP_CCID ]}
    else pids in
  pids.

End PID.

(** *** The interfaces of each mode and product

    Read off the names and the comments of the constants in [ykdef.py]
    ("OTP + CCID composite", "Yubikey NEO - U2F and CCID", ...), not off the
    filters: which of OTP, CCID and U2F a mode or product offers.  The first
    YubiKey (versions 1 and 2) is an OTP device, the Security Key a U2F
    device. *)

Record interfaces : Type := {
  if_otp : bool;
  if_ccid : bool;
  if_u2f : bool;
}.

Definition ifs (otp ccid u2f : bool) : interfaces :=
  {| if_otp := otp; if_ccid := ccid; if_u2f := u2f |}.

Definition mode_interfaces : list (Z * interfaces) :=
  [ (MODE.OTP,          ifs true  false false);
    (MODE.CCID,         ifs false true  false);
    (MODE.OTP_CCID,     ifs true  true  false);
    (MODE.U2F,          ifs false false true);
    (MODE.OTP_U2F,      ifs true  false true);
    (MODE.U2F_CCID,     ifs false true  true);
    (MODE.OTP_U2F_CCID, ifs true  true  true) ].

Definition pid_interfaces : list (Z * interfaces) :=
  [ (PID.YUBIKEY,          ifs true  false false);
    (PID.NEO_OTP,          ifs true  false false);
    (PID.NEO_OTP_CCID,     ifs true  true  false);
    (PID.NEO_CCID,         ifs false true  false);
    (PID.NEO_U2F,          ifs false false true);
    (PID.NEO_OTP_U2F,      ifs true  false true);
    (PID.NEO_U2F_CCID,     ifs false true  true);
    (PID.NEO_OTP_U2F_CCID, ifs true  true  true);
    (PID.NEO_SKY,          ifs false false true);
    (PID.YK4_OTP,          ifs true  false false);
    (PID.YK4_U2F,          ifs false false true);
    (PID.YK4_OTP_U2F,      ifs true  false true);
    (PID.YK4_CCID,         ifs false true  false);
    (PID.YK4_OTP_CCID,     ifs true  true  false);
    (PID.YK4_U2F_CCID,     ifs false true  true);
    (PID.YK4_OTP_U2F_CCID, ifs true  true  true);
    (PID.PLUS_U2F_OTP,     ifs true  false true) ].

(** An entry supports the request when it offers every requested interface. *)
Definition supports (otp ccid u2f : bool) (entry : Z * interfaces) : bool :=
  implb otp (if_otp entry.2) && implb ccid (if_ccid entry.2)
  && implb u2f (if_u2f entry.2).

Definition supporting (otp ccid u2f : bool) (table : list (Z * interfaces))
  : gset Z :=
  list_to_set (fst <$> List.filter (supports otp ccid u2f) table).

(** *** The three well-formed calls of [YubiKeyNEO_NDEF.type]

    "One of the three selectors given alone", with the type code it selects:
    as a relation, and as the function that decides it. *)
Inductive selects : bool → bool → pyval → Z → Prop :=
  | selects_url : selects true false PyNone _NDEF_URI_TYPE
  | selects_text : selects false true PyNone _NDEF_TEXT_TYPE
  | selects_raw (code : Z) : selects false false (PyInt code) code.

Definition selection (url text : bool) (other : pyval) : option Z :=
  match other with
  | PyNone =>
      if url && negb text then Some _NDEF_URI_TYPE
      else if negb url && text then Some _NDEF_TEXT_TYPE
      else None
  | PyInt code => if negb url && negb text then Some code else None
  | _ => None
  end.

(** *** Order of version triples

    [version_ge v w]: [v] is at least [w] in the lexicographic order of
    (major, minor, patch). *)
Definition version_ge (v w : Z * Z * Z) : Prop :=
  let '(major, minor, patch) := v in
  let '(major', minor', patch') := w in
  major' < major ∨
  (major = major' ∧ (minor' < minor ∨ (minor = minor' ∧ patch' ≤ patch))).

Definition caps_of (v : Z * Z * Z) : YubiKeyNEO_USBHIDCapabilities.t :=
  let '(major, minor, patch) := v in
  {| YubiKeyNEO_USBHIDCapabilities.version := [major; minor; patch] |}.

(** *** Sample records *)

(** A record with the numeric type code 300, selected through [type]. *)
Definition ndef_type_300 : YubiKeyNEO_NDEF.t :=
  (YubiKeyNEO_NDEF.type false false (PyInt 300)
     (YubiKeyNEO_NDEF.__init__ (bytes_of "hi") None)).2.

(** A URI whose compressed form is exactly 54 bytes: the code of
    [https://] and 53 bytes of remainder. *)
Definition uri_54 : bytes :=
  bytes_of "https://" ++ replicate 53 "a"%byte.


(** The text record "hi" in English, declared as UTF-16. *)
Definition text_hi_utf16 : YubiKeyNEO_NDEF.t :=
  YubiKeyNEO_NDEF.text (str_of "UTF16") (bytes_of "en")
    (YubiKeyNEO_NDEF.__init__ (bytes_of "hi") None).

(** The same record with the default encoding, UTF-8. *)
Definition text_hi_utf8 : YubiKeyNEO_NDEF.t :=
  YubiKeyNEO_NDEF.text (str_of "UTF-8") (bytes_of "en")
    (YubiKeyNEO_NDEF.__init__ (bytes_of "hi") None).

(** The device configuration of the specification's example: mode
    OTP + CCID, a challenge-response timeout of 10 s, auto-eject after 300
    units. *)
Definition device_config_example : YubiKeyNEO_DEVICE_CONFIG.t :=
  YubiKeyNEO_DEVICE_CONFIG.auto_eject_time 300
    (YubiKeyNEO_DEVICE_CONFIG.cr_timeout 10
       (YubiKeyNEO_DEVICE_CONFIG.__init__ (Some 0x02))).

(** ** class [YubiKeyNEO_USBHID] *)

(** [a <= b] on Python tuples of integers. *)
Definition tuple_le (a b : list Z) : bool :=
  match tuple_compare a b with Gt => false | _ => true end.

(** What [_write_config] is handed: any object with a [to_frame] method, here
    one of the two record classes. *)
Inductive config : Type :=
  | config_ndef (ndef : YubiKeyNEO_NDEF.t)
  | config_device (device_config : YubiKeyNEO_DEVICE_CONFIG.t).

(** How a method of the device class ends: with what [_write_config] gave,
    or with the [NameError] of a global name the module never binds. *)
Inductive outcome (R : Type) : Type :=
  | Returned (r : R)
  | NameError (name : string).
Arguments Returned {R} r.
Arguments NameError {R} name.

Module YubiKeyNEO_USBHID.

Definition model : string := "YubiKey NEO".

(** [self.description] once [__init__] has run: the class attribute, or
    what the constructor assigns after the base-class constructor;
    [version_num] is what [self.version_num()] of the base class returns. *)
Definition description (version_num : list Z) : string :=
  if tuple_ge version_num [2; 1; 4] && tuple_le version_num [2; 1; 9]
  then "YubiKey NEO BETA"
  else "YubiKey NEO".

Section Methods.

(** [_write_config] belongs to the base class [YubiKeyUSBHID], which is not
    among the sources: it is a parameter, a function of the configuration,
    the slot and the state of the connection. *)
Context {Device R : Type}.
Variable _write_config : config → Z → Device → R * Device.

Definition write_ndef (ndef : YubiKeyNEO_NDEF.t) (dev : Device)
  : R * Device :=
  _write_config (config_ndef ndef) _SLOT_NDEF dev.

(** The module imports [yubikey_usb_hid], [yubikey_frame],
    [yubico_exception] and [yubico_util], not [yubikey_base]: the [raise]
    statement fails on looking that name up. *)
Definition write_device_config
    (capabilities : YubiKeyNEO_USBHIDCapabilities.t)
    (device_config : YubiKeyNEO_DEVICE_CONFIG.t) (dev : Device)
  : outcome R * Device :=
  if negb (YubiKeyNEO_USBHIDCapabilities.have_device_config capabilities)
  then (NameError "yubikey_base", dev)
  else
    let '(r, dev) :=
      _write_config (config_device device_config) _SLOT_DEVICE_CONFIG dev in
    (Returned r, dev).

End Methods.

Definition init_device_config (mode : option Z) : YubiKeyNEO_DEVICE_CONFIG.t :=
  YubiKeyNEO_DEVICE_CONFIG.__init__ mode.

End YubiKeyNEO_USBHID.

(** ** [ykdef.py]: slots and capability bits *)

Module SLOT.
Definition CONFIG : Z := 0x01.
Definition CONFIG2 : Z := 0x03.
Definition UPDATE1 : Z := 0x04.
Definition UPDATE2 : Z := 0x05.
Definition SWAP : Z := 0x06.
Definition NDEF : Z := 0x08.
Definition NDEF2 : Z := 0x09.
Definition DEVICE_SERIAL : Z := 0x10.
Definition DEVICE_CONFIG : Z := 0x11.
Definition SCAN_MAP : Z := 0x12.
Definition YK4_CAPABILITIES : Z := 0x13.
Definition CHAL_OTP1 : Z := 0x20.
Definition CHAL_OTP2 : Z := 0x28.
Definition CHAL_HMAC1 : Z := 0x30.
Definition CHAL_HMAC2 : Z := 0x38.
End SLOT.

Module YK4_CAPA.
Definition OTP : Z := 0x01.
Definition U2F : Z := 0x02.
Definition CCID : Z := 0x04.
End YK4_CAPA.

(** ** [yubikey_defs.py] *)

Module yubikey_defs.

Definition SLOT_CONFIG : Z := 0x01.
Definition SLOT_CONFIG2 : Z := 0x03.
Definition SLOT_UPDATE1 : Z := 0x04.
Definition SLOT_UPDATE2 : Z := 0x05.
Definition SLOT_SWAP : Z := 0x06.

(** ["%02x" % num]: lower-case hexadecimal digits of the absolute value,
    a minus sign for a negative number, zero-filled to two characters. *)
Definition format_02x (num : Z) : string :=
  match num with
  | Z0 => "00"
  | Zpos p =>
      let digits := HexString.Raw.of_pos p "" in
      if (String.length digits <? 2)%nat then String "0"%char digits else digits
  | Zneg p => String "-"%char (HexString.Raw.of_pos p "")
  end.

Definition known : gmap Z string :=
  {[ 0x01 := "SLOT_CONFIG";
     0x03 := "SLOT_CONFIG2";
     0x04 := "SLOT_UPDATE1";
     0x05 := "SLOT_UPDATE2";
     0x06 := "SLOT_SWAP" ]}%string.

Definition command2str (num : Z) : string :=
  match known !! num with
  | Some name => name
  | None => ("0x" ++ format_02x num)%string
  end.

End yubikey_defs.

(** *** The requested capability bits of a filter call, as a [YK4_CAPA] mask *)
Definition requested_capa (otp ccid u2f : bool) : Z :=
  Z.lor (if otp then YK4_CAPA.OTP else 0)
    (Z.lor (if u2f then YK4_CAPA.U2F else 0)
       (if ccid then YK4_CAPA.CCID else 0)).

(** *** A connection that only records the slots written to *)
Definition log_write (cfg : config) (slot : Z) (dev : list Z)
  : unit * list Z :=
  (tt, slot :: dev).

(** *** A payload for each identifier code

    The bytes of the prefix the table lists under [code] (nothing for a code
    the table does not list). *)
Definition sample_uri (code : Z) : bytes :=
  match List.find (λ entry, bool_decide (entry.1 = code)) uri_identifiers with
  | Some (_, prefix) => (λ c, default "000"%byte (Byte.of_N c)) <$> prefix
  | None => []
  end.

Definition emits (code : Z) (payload : bytes) : bool :=
  match YubiKeyNEO_NDEF._encode_ndef_uri_type payload with
  | Ok (b :: _) => bool_decide (byte_to_Z b = code)
  | _ => false
  end.

(** *** The values a device configuration can pack *)
Definition in_range (self : YubiKeyNEO_DEVICE_CONFIG.t) : Prop :=
  0 ≤ YubiKeyNEO_DEVICE_CONFIG._mode self < 256 ∧
  0 ≤ YubiKeyNEO_DEVICE_CONFIG._cr_timeout self < 256 ∧
  0 ≤ YubiKeyNEO_DEVICE_CONFIG._auto_eject_time self < 65536.

#[global] Instance in_range_dec self : Decision (in_range self).
Proof. unfold in_range. apply _. Defined.

(** *** The size of the data after the step of the record's type

    As the specification words it, apart from the code that produces it:
    for a URI record the code byte and the payload without the table prefix
    it starts with, for a text record the status byte, the language tag and
    the payload, for any other type the payload. *)

Definition matched_len (payload : bytes) : nat :=
  match first_match payload with
  | Some (_, P) => length P
  | None => 0%nat
  end.


(** A text record whose status byte cannot be formed: the encoding is not
    ['UTF16'], so the status is the length of the language tag, and that
    length is no byte value. *)
Definition status_overflow (self : YubiKeyNEO_NDEF.t) : Prop :=
  YubiKeyNEO_NDEF.ndef_type self = _NDEF_TEXT_TYPE ∧
  YubiKeyNEO_NDEF.ndef_text_enc self ≠ str_of "UTF16" ∧
  (256 ≤ length (YubiKeyNEO_NDEF.ndef_text_lang self))%nat.

#[global] Instance status_overflow_dec self : Decision (status_overflow self).
Proof. unfold status_overflow. apply _. Defined.


(** *** Lower-case hexadecimal digits *)

Definition hex_digit (c : ascii) : bool :=
  existsb (Ascii.eqb c) (list_ascii_of_string "0123456789abcdef").

Fixpoint all_hex (s : string) : bool :=
  match s with
  | EmptyString => true
  | String c s' => hex_digit c && all_hex s'
  end.

(** * Properties *)

(** ** The URI identifier code *)

Lemma lower_cp_vs_casefold (x p : N) :
  lowercase_ascii p → lower_cp x = p ↔ ascii_casefold x = ascii_casefold p.
Proof.
  unfold lowercase_ascii, lower_cp, ascii_casefold. intros [Hlt Hup].
  destruct (N.leb_spec 65 x), (N.leb_spec x 90), (N.leb_spec 192 x),
    (N.leb_spec x 222), (N.eqb_spec x 215), (N.leb_spec 65 p),
    (N.leb_spec p 90); simpl; lia.
Qed.

Lemma lower_vs_casefold (s p : str) :
  Forall lowercase_ascii p →
  str_lower s = p ↔ ascii_casefold <$> s = ascii_casefold <$> p.
Proof.
  intros Hp. revert s. unfold str_lower.
  induction Hp as [|c p Hc Hp IH]; intros [|x s]; simpl; try done.
  pose proof (lower_cp_vs_casefold x c Hc) as Hx.
  split; intros [= E1 E2]; f_equal; try tauto; by apply IH.
Qed.

Lemma uri_identifiers_well_formed : Forall well_formed_entry uri_identifiers.
Proof. apply (bool_decide_unpack _). vm_compute. exact I. Qed.

(** On a table of lower-case ASCII prefixes the loop finds the first
    case-insensitive match. *)
Lemma uri_scan_first_match table payload :
  Forall well_formed_entry table →
  YubiKeyNEO_NDEF.uri_scan table payload =
    match first_match_in table payload with
    | Some (code, prefix) => (code, drop (length prefix) payload)
    | None => (0, payload)
    end.
Proof.
  induction 1 as [|[code prefix] table [_ Hp] _ IH]; simpl; [done|].
  unfold ci_startswith. simpl in Hp.
  pose proof (lower_vs_casefold
                (decode_latin1 (take (length prefix) payload)) _ Hp).
  case_decide; case_bool_decide; tauto.
Qed.

Lemma first_match_in_elem table payload e :
  first_match_in table payload = Some e → e ∈ table.
Proof.
  intros H. apply List.find_some in H as [H _]. by apply list_elem_of_In.
Qed.

Lemma byte_of_Z_Some n :
  0 ≤ n < 256 → ∃ b, byte_of_Z n = Some b ∧ byte_to_Z b = n.
Proof.
  intros Hn. unfold byte_of_Z, byte_to_Z. rewrite decide_True by lia.
  destruct (Byte.of_N (Z.to_N n)) as [b|] eqn:E.
  - exists b. split; [done|]. apply Byte.to_of_N in E. lia.
  - apply Byte.of_N_None_iff in E. lia.
Qed.

Lemma byte_of_Z_None n : ¬ (0 ≤ n < 256) → byte_of_Z n = None.
Proof.
  intros Hn. unfold byte_of_Z. case_decide; [|done].
  apply Byte.of_N_None_iff. lia.
Qed.

Lemma byte_to_Z_inj (a b : byte) : byte_to_Z a = byte_to_Z b → a = b.
Proof.
  unfold byte_to_Z. intros H. apply N2Z.inj in H.
  pose proof (Byte.of_to_N a) as Ha. pose proof (Byte.of_to_N b) as Hb.
  rewrite H in Ha. congruence.
Qed.

(** The encoder by cases on the first matching entry. *)
Lemma encode_uri_cases (payload : bytes) :
  match first_match payload with
  | Some (code, P) =>
      ∃ b, byte_to_Z b = code ∧
           YubiKeyNEO_NDEF._encode_ndef_uri_type payload
           = Ok (b :: drop (length P) payload)
  | None =>
      YubiKeyNEO_NDEF._encode_ndef_uri_type payload
      = Ok ("000"%byte :: payload)
  end.
Proof.
  unfold YubiKeyNEO_NDEF._encode_ndef_uri_type, first_match.
  rewrite (uri_scan_first_match _ payload uri_identifiers_well_formed).
  destruct (first_match_in uri_identifiers payload) as [[code P]|] eqn:Hm;
    [|done].
  pose proof (first_match_in_elem _ _ _ Hm) as Hin.
  pose proof uri_identifiers_well_formed as Hok. rewrite Forall_forall in Hok.
  destruct (Hok _ Hin) as [Hc _]. simpl in Hc.
  destruct (byte_of_Z_Some code Hc) as (b & Hb & Hv).
  exists b. split; [done|]. unfold chr_byte. by rewrite Hb.
Qed.

Lemma encode_uri_total (payload : bytes) :
  ∃ data, YubiKeyNEO_NDEF._encode_ndef_uri_type payload = Ok data.
Proof.
  pose proof (encode_uri_cases payload) as H.
  destruct (first_match payload) as [[code P]|]; [|eauto].
  destruct H as (b & _ & ->). eauto.
Qed.

(** C1: if (code, P) is the first table entry, in table order, whose prefix
    matches the start of the payload case-insensitively, the URI encoding is
    the byte [code] followed by the payload without its first len(P) bytes
    (untouched, so case-preserved); if no entry matches, it is the byte 0x00
    followed by the whole payload. *)
Theorem encode_uri_first_match (payload : bytes) :
  (∀ code P, first_match payload = Some (code, P) →
     ∃ b, byte_to_Z b = code ∧
          YubiKeyNEO_NDEF._encode_ndef_uri_type payload
          = Ok (b :: drop (length P) payload)) ∧
  (first_match payload = None →
     YubiKeyNEO_NDEF._encode_ndef_uri_type payload
     = Ok ("000"%byte :: payload)).
Proof.
  pose proof (encode_uri_cases payload) as H. split.
  - intros code P Hm. by rewrite Hm in H.
  - intros Hm. by rewrite Hm in H.
Qed.

Lemma encode_uri_first_match_witness :
  first_match (bytes_of "HTTPS://WWW.Yubico.com/Start") =
    Some (0x02, str_of "https://www.") ∧
  (∃ b, byte_to_Z b = 0x02 ∧
        YubiKeyNEO_NDEF._encode_ndef_uri_type (bytes_of "HTTPS://WWW.Yubico.com/Start") =
          Ok (b :: bytes_of "Yubico.com/Start")) ∧
  first_match (bytes_of "gopher://yubico.com") = None ∧
  YubiKeyNEO_NDEF._encode_ndef_uri_type (bytes_of "gopher://yubico.com") =
    Ok ("000"%byte :: bytes_of "gopher://yubico.com").
Proof.
  split; [reflexivity|]. split.
  - apply (proj1 (encode_uri_first_match
                    (bytes_of "HTTPS://WWW.Yubico.com/Start"))
             0x02 (str_of "https://www.")).
    reflexivity.
  - split; [reflexivity|].
    apply (proj2 (encode_uri_first_match (bytes_of "gopher://yubico.com"))).
    reflexivity.
Defined.

(** ** The catalogue filters *)

Lemma elem_of_supporting otp ccid u2f table (m : Z) :
  m ∈ supporting otp ccid u2f table ↔
  ∃ i, (m, i) ∈ table ∧
       (otp = true → if_otp i = true) ∧
       (ccid = true → if_ccid i = true) ∧
       (u2f = true → if_u2f i = true).
Proof.
  unfold supporting. rewrite elem_of_list_to_set, list_elem_of_fmap. split.
  - intros ([m' i] & -> & Hin). apply list_elem_of_In in Hin.
    apply List.filter_In in Hin as [Hin Hs]. apply list_elem_of_In in Hin.
    exists i. split; [done|]. unfold supports in Hs. simpl in *.
    destruct otp, ccid, u2f, (if_otp i), (if_ccid i), (if_u2f i); done.
  - intros (i & Hin & Ho & Hc & Hu). exists (m, i). split; [done|].
    apply list_elem_of_In, List.filter_In. split; [by apply list_elem_of_In|].
    unfold supports. simpl.
    destruct otp, ccid, u2f, (if_otp i), (if_ccid i), (if_u2f i);
      simpl in *; auto.
Qed.

(** C8: for every combination of the three flags, [MODE.all] is exactly the
    set of the seven modes that offer every requested interface, and
    [PID.all] is exactly the set of the known product IDs that do. *)
Theorem all_filters_keep_supporting (otp ccid u2f : bool) :
  MODE.all otp ccid u2f = supporting otp ccid u2f mode_interfaces ∧
  PID.all otp ccid u2f = supporting otp ccid u2f pid_interfaces.
Proof.
  split; destruct otp, ccid, u2f; vm_compute; reflexivity.
Qed.

(** ** [struct.pack] *)

Lemma pack_B_byte n :
  0 ≤ n < 256 →
  ∃ b, pack_item fmt_B (arg_int n) = Ok [b] ∧ byte_to_Z b = n.
Proof.
  intros Hn. destruct (byte_of_Z_Some n Hn) as (b & Hb & Hv).
  exists b. simpl. by rewrite Hb.
Qed.

Lemma pack_B_out_of_range n :
  ¬ (0 ≤ n < 256) → pack_item fmt_B (arg_int n) = Raise struct_error.
Proof. intros Hn. simpl. by rewrite byte_of_Z_None. Qed.

Lemma pack_H_le n :
  0 ≤ n < 65536 →
  ∃ lo hi, pack_item fmt_H (arg_int n) = Ok [lo; hi] ∧
           byte_to_Z lo = n `mod` 256 ∧ byte_to_Z hi = n `div` 256.
Proof.
  intros Hn. simpl. rewrite decide_True by done.
  assert (0 ≤ n `mod` 256 < 256) as Hlo by (apply Z.mod_pos_bound; lia).
  assert (0 ≤ n `div` 256 < 256) as Hhi
    by (split; [apply Z.div_pos; lia | apply Z.div_lt_upper_bound; lia]).
  destruct (byte_of_Z_Some _ Hlo) as (lo & -> & ?).
  destruct (byte_of_Z_Some _ Hhi) as (hi & -> & ?).
  by exists lo, hi.
Qed.

Lemma pack_s_exact k b :
  length b = k → pack_item (fmt_s k) (arg_bytes b) = Ok b.
Proof.
  intros <-. simpl. rewrite firstn_all, Nat.sub_diag. simpl.
  by rewrite app_nil_r.
Qed.



Lemma pack_item_length f a out :
  pack_item f a = Ok out → length out = fmt_size f.
Proof.
  destruct f, a; simpl; repeat case_match; try congruence;
    intros [= <-]; try done.
  rewrite length_app, length_take, length_replicate. lia.
Qed.

Lemma struct_pack_le_length fmt args out :
  struct_pack_le fmt args = Ok out →
  length out = sum_list (fmt_size <$> fmt).
Proof.
  revert args out. induction fmt as [|f fmt IH]; intros [|a args] out; simpl;
    try congruence.
  - by intros [= <-].
  - destruct (pack_item f a) eqn:Ef; simpl; [|done].
    destruct (struct_pack_le fmt args) eqn:Er; simpl; [|done].
    intros [= <-]. rewrite length_app.
    by rewrite (pack_item_length _ _ _ Ef), (IH _ _ Er).
Qed.

Lemma ljust_length width fill b :
  (length b ≤ width)%nat → length (ljust width fill b) = width.
Proof. intros H. unfold ljust. rewrite length_app, length_replicate. lia. Qed.

Lemma chr_byte_raises n e : chr_byte n = Raise e → e = ValueError.
Proof. unfold chr_byte. case_match; congruence. Qed.

(** ** The NDEF record *)

Section NDEF_record.
Import YubiKeyNEO_NDEF.

Lemma transform_raises self e : transform self = Raise e → e = ValueError.
Proof.
  unfold transform, _encode_ndef_uri_type, _encode_ndef_text_params.
  repeat case_decide; try done; repeat case_match;
    match goal with
    | |- context [chr_byte ?n] =>
        destruct (chr_byte n) eqn:E; simpl; [done|];
        intros [= <-]; by eapply chr_byte_raises
    end.
Qed.

(** What [to_string] packs once the data fits. *)
Lemma to_string_fits self data :
  transform self = Ok data →
  (length data ≤ 54)%nat →
  to_string self =
    struct_pack_le [fmt_B; fmt_B; fmt_s 54; fmt_s 6]
      [arg_int (Z.of_nat (length data)); arg_int (ndef_type self);
       arg_bytes (ljust 54 "000"%byte data); arg_bytes (access_code self)].
Proof.
  intros Ht Hlen. unfold to_string. rewrite Ht. simpl.
  unfold _NDEF_DATA_SIZE. by rewrite decide_False by lia.
Qed.

Lemma to_string_too_long self data :
  transform self = Ok data →
  (54 < length data)%nat →
  to_string self = Raise PayloadTooLarge.
Proof.
  intros Ht Hlen. unfold to_string. rewrite Ht. simpl.
  unfold _NDEF_DATA_SIZE. by rewrite decide_True by lia.
Qed.

Lemma pack_ndef len ty data code :
  0 ≤ len < 256 → 0 ≤ ty < 256 →
  length data = 54%nat → length code = 6%nat →
  ∃ blen bty,
    byte_to_Z blen = len ∧ byte_to_Z bty = ty ∧
    struct_pack_le [fmt_B; fmt_B; fmt_s 54; fmt_s 6]
      [arg_int len; arg_int ty; arg_bytes data; arg_bytes code]
    = Ok (blen :: bty :: data ++ code).
Proof.
  intros Hlen Hty Hdata Hcode.
  destruct (pack_B_byte len Hlen) as (blen & Eblen & ?).
  destruct (pack_B_byte ty Hty) as (bty & Ebty & ?).
  exists blen, bty. split; [done|]. split; [done|].
  cbn [struct_pack_le]. rewrite Eblen, Ebty.
  rewrite (pack_s_exact 54 data Hdata), (pack_s_exact 6 code Hcode).
  simpl. by rewrite app_nil_r.
Qed.

(** Whatever the access code, a record with a byte-valued type code whose
    data fits is serialized. *)
Lemma to_string_succeeds self data :
  transform self = Ok data →
  (length data ≤ 54)%nat →
  0 ≤ ndef_type self < 256 →
  ∃ out, to_string self = Ok out.
Proof.
  intros Ht Hlen Hty. rewrite (to_string_fits self data Ht Hlen).
  destruct (pack_B_byte (Z.of_nat (length data))) as (blen & Eblen & _);
    [lia|].
  destruct (pack_B_byte (ndef_type self) Hty) as (bty & Ebty & _).
  cbn [struct_pack_le]. rewrite Eblen, Ebty. simpl. eauto.
Qed.

Lemma to_string_packs (self : t) (data : bytes) :
  transform self = Ok data →
  (length data ≤ 54)%nat →
  length (access_code self) = 6%nat →
  0 ≤ ndef_type self < 256 →
  ∃ blen bty,
    byte_to_Z blen = Z.of_nat (length data) ∧
    byte_to_Z bty = ndef_type self ∧
    to_string self =
      Ok (blen :: bty :: ljust 54 "000"%byte data ++ access_code self).
Proof.
  intros Ht Hlen Hcode Hty.
  rewrite (to_string_fits self data Ht Hlen).
  apply pack_ndef; [lia | done | by apply ljust_length | done].
Qed.

(** C3, as amended: a record whose transformed data is at most 54 bytes,
    whose access code is 6 bytes and whose type code is a byte value
    serializes to exactly 62 bytes: the length of the data before padding,
    the type code, the data zero-padded on the right to 54 bytes, the access
    code; nothing follows. *)
Theorem to_string_layout (self : t) (data : bytes) :
  transform self = Ok data →
  (length data ≤ 54)%nat →
  length (access_code self) = 6%nat →
  0 ≤ ndef_type self < 256 →
  ∃ blen bty,
    byte_to_Z blen = Z.of_nat (length data) ∧
    byte_to_Z bty = ndef_type self ∧
    to_string self =
      Ok (blen :: bty :: ljust 54 "000"%byte data ++ access_code self) ∧
    length (blen :: bty :: ljust 54 "000"%byte data ++ access_code self)
      = 62%nat.
Proof.
  intros Ht Hlen Hcode Hty.
  destruct (to_string_packs self data Ht Hlen Hcode Hty)
    as (blen & bty & H1 & H2 & H3).
  exists blen, bty. repeat split; try done.
  simpl. rewrite length_app, ljust_length by done. lia.
Qed.

Lemma to_string_layout_witness :
  ∃ blen bty,
    byte_to_Z blen = 15 ∧ byte_to_Z bty = 85 ∧
    to_string (__init__ (bytes_of "https://yubico.com/neo") None) =
      Ok (blen :: bty ::
          ljust 54 "000"%byte ("004"%byte :: bytes_of "yubico.com/neo") ++
          replicate 6 "000"%byte) ∧
    length (blen :: bty ::
            ljust 54 "000"%byte ("004"%byte :: bytes_of "yubico.com/neo") ++
            replicate 6 "000"%byte) = 62%nat.
Proof.
  apply (to_string_layout
           (__init__ (bytes_of "https://yubico.com/neo") None)
           ("004"%byte :: bytes_of "yubico.com/neo")).
  - reflexivity.
  - vm_compute. lia.
  - reflexivity.
  - vm_compute. split; [discriminate | reflexivity].
Defined.

Lemma ndef_type_300_raises :
  transform ndef_type_300 = Ok (bytes_of "hi") ∧
  length (access_code ndef_type_300) = 6%nat ∧
  to_string ndef_type_300 = Raise struct_error.
Proof. repeat split; reflexivity. Qed.

(** C3 as stated fails: the record of type code 300 has 2 bytes of data and
    a 6-byte access code, and its serialization raises [struct.error]. *)
Lemma to_string_layout_counterexample :
  ¬ (∀ (self : t) (data : bytes),
       transform self = Ok data →
       (length data ≤ 54)%nat →
       length (access_code self) = 6%nat →
       ∃ out, to_string self = Ok out ∧ length out = 62%nat).
Proof.
  intros H.
  destruct (H ndef_type_300 (bytes_of "hi")) as (out & Hout & _).
  - reflexivity.
  - vm_compute. lia.
  - reflexivity.
  - destruct ndef_type_300_raises as (_ & _ & Hr). congruence.
Qed.


(** C10: a record that is only constructed has the URI type and, when no
    access code is passed, six zero bytes as access code.  Its data is the
    payload compressed: the code of the first table prefix the payload
    starts with (case-insensitively) and the payload without that prefix,
    or 0x00 and the whole payload when it starts with none; when that fits,
    the serialization carries it after the length and the type byte 0x55
    ('U').  So [https://yubico.com] is stored as 0x04 and [yubico.com]. *)
Theorem init_defaults_to_uri (payload : bytes) :
  (∀ code, ndef_type (__init__ payload code) = 0x55) ∧
  access_code (__init__ payload None) = replicate 6 "000"%byte ∧
  transform (__init__ payload None) = _encode_ndef_uri_type payload ∧
  (∃ b,
     match first_match payload with
     | Some (code, _) => byte_to_Z b = code
     | None => b = "000"%byte
     end ∧
     transform (__init__ payload None)
     = Ok (b :: drop (matched_len payload) payload) ∧
     if decide (length (b :: drop (matched_len payload) payload) ≤ 54)%nat
     then
       ∃ blen,
         byte_to_Z blen
         = Z.of_nat (length (b :: drop (matched_len payload) payload)) ∧
         to_string (__init__ payload None) =
           Ok (blen :: "U"%byte ::
               ljust 54 "000"%byte
                 (b :: drop (matched_len payload) payload) ++
               replicate 6 "000"%byte)
     else to_string (__init__ payload None) = Raise PayloadTooLarge) ∧
  transform (__init__ (bytes_of "https://yubico.com") None)
  = Ok ("004"%byte :: bytes_of "yubico.com").
Proof.
  split; [done|]. split; [done|]. split; [done|]. split; [|reflexivity].
  assert (∃ b,
            match first_match payload with
            | Some (code, _) => byte_to_Z b = code
            | None => b = "000"%byte
            end ∧
            _encode_ndef_uri_type payload
            = Ok (b :: drop (matched_len payload) payload))
    as (b & Hb & Hd).
  { pose proof (encode_uri_cases payload) as Hc. unfold matched_len.
    destruct (first_match payload) as [[code P]|].
    - destruct Hc as (b & Hb & He). by exists b.
    - by exists "000"%byte. }
  exists b. split; [done|].
  assert (transform (__init__ payload None)
          = Ok (b :: drop (matched_len payload) payload)) as Ht by done.
  split; [done|]. case_decide as Hlen.
  - destruct (to_string_packs _ _ Ht Hlen)
      as (blen & bty & Hblen & Hbty & Hs); [done | done |].
    exists blen. split; [done|].
    by rewrite <- (byte_to_Z_inj bty "U"%byte Hbty).
  - apply (to_string_too_long _ _ Ht). lia.
Qed.

(** [self.ndef_type = ty] touches the type code only. *)
Lemma set_ndef_type_fields ty self :
  ndef_type (set_ndef_type ty self) = ty ∧
  ndef_str (set_ndef_type ty self) = ndef_str self ∧
  access_code (set_ndef_type ty self) = access_code self ∧
  ndef_text_lang (set_ndef_type ty self) = ndef_text_lang self ∧
  ndef_text_enc (set_ndef_type ty self) = ndef_text_enc self.
Proof. done. Qed.

Lemma selection_selects url text other code :
  selection url text other = Some code ↔ selects url text other code.
Proof.
  split.
  - destruct url, text, other; simpl; intros [= <-]; constructor.
  - by intros [].
Qed.

(** C5: [type] succeeds exactly on the three calls with one selector alone
    (url: the URI type 'U'; text: the Text type 'T'; an integer code with
    url and text unset: that code).  It then returns the record, whose type
    code is now the selected one and whose other attributes are as before.
    Every other call, among them url with text and the call without any
    selector, raises the bad-type error and leaves the record as it was. *)
Theorem type_selects_exactly_one (self : t) (url text : bool) (other : pyval) :
  (∀ code, selection url text other = Some code →
     ∃ self',
       type url text other self = (Ok self', self') ∧
       ndef_type self' = code ∧
       ndef_str self' = ndef_str self ∧
       access_code self' = access_code self ∧
       ndef_uri_rt self' = ndef_uri_rt self ∧
       ndef_text_lang self' = ndef_text_lang self ∧
       ndef_text_enc self' = ndef_text_enc self) ∧
  (selection url text other = None →
     type url text other self = (Raise InvalidConfiguration, self)) ∧
  ndef_type (type true false PyNone self).2 = 0x55 ∧
  ndef_type (type false true PyNone self).2 = 0x54 ∧
  (∀ code, ndef_type (type false false (PyInt code) self).2 = code) ∧
  type true true PyNone self = (Raise InvalidConfiguration, self) ∧
  type false false PyNone self = (Raise InvalidConfiguration, self).
Proof.
  split; [|split; [|done]].
  - intros code Hsel. apply selection_selects in Hsel.
    destruct Hsel; eexists; (split; [reflexivity|]); done.
  - by destruct url, text, other.
Qed.

Lemma type_selects_exactly_one_witness :
  (∃ self',
     type false false (PyInt 0x53) (__init__ (bytes_of "hi") None)
     = (Ok self', self') ∧
     ndef_type self' = 0x53 ∧
     ndef_str self' = bytes_of "hi" ∧
     access_code self' = replicate 6 "000"%byte ∧
     ndef_uri_rt self' = 0 ∧
     ndef_text_lang self' = bytes_of "en" ∧
     ndef_text_enc self' = str_of "UTF-8") ∧
  type true false (PyInt 0x53) (__init__ (bytes_of "hi") None)
  = (Raise InvalidConfiguration, __init__ (bytes_of "hi") None).
Proof.
  split.
  - apply (proj1 (type_selects_exactly_one
                    (__init__ (bytes_of "hi") None)
                    false false (PyInt 0x53))).
    reflexivity.
  - apply (proj1 (proj2 (type_selects_exactly_one
                           (__init__ (bytes_of "hi") None)
                           true false (PyInt 0x53)))).
    reflexivity.
Defined.

(** *** The status byte of a text record *)

(** With any encoding other than ['UTF16'] the status byte is the length of
    the language tag, followed by the tag and the payload. *)
Lemma text_status_other_encoding self data :
  ndef_text_enc self ≠ str_of "UTF16" →
  (length (ndef_text_lang self) < 256)%nat →
  ∃ status,
    byte_to_Z status = Z.of_nat (length (ndef_text_lang self)) ∧
    _encode_ndef_text_params self data
    = Ok (status :: ndef_text_lang self ++ data).
Proof.
  intros Henc Hlen. unfold _encode_ndef_text_params.
  rewrite decide_False by done. unfold chr_byte.
  destruct (byte_of_Z_Some (Z.of_nat (length (ndef_text_lang self))))
    as (b & -> & Hb); [lia|].
  by exists b.
Qed.

Lemma land_0x80_small n : 0 ≤ n < 128 → Z.land n 0x80 = 0.
Proof.
  intros Hn. apply Z.bits_inj'. intros i Hi.
  rewrite Z.land_spec, Z.bits_0. change 0x80 with (2 ^ 7).
  rewrite Z.pow2_bits_eqb by lia.
  destruct (Z.eqb_spec 7 i) as [<-|]; [|by rewrite andb_false_r].
  rewrite andb_true_r.
  destruct (decide (n = 0)) as [->|]; [apply Z.bits_0|].
  apply Z.bits_above_log2; [lia|].
  apply Z.log2_lt_pow2; lia.
Qed.

(** With ['UTF16'] the length is masked with 0x80, not joined to it: for a
    language tag shorter than 128 bytes the status byte is 0. *)
Lemma text_status_utf16 self data :
  ndef_text_enc self = str_of "UTF16" →
  (length (ndef_text_lang self) < 128)%nat →
  _encode_ndef_text_params self data
  = Ok ("000"%byte :: ndef_text_lang self ++ data).
Proof.
  intros Henc Hlen. unfold _encode_ndef_text_params.
  rewrite decide_True by done.
  by rewrite land_0x80_small by lia.
Qed.

(** C2, at the UTF-16 record "hi"/"en": the status byte the code emits is
    0x00, with the high bit clear and the length of the language tag lost,
    where the claim has 0x82. *)
Theorem text_utf16_status_byte :
  _encode_ndef_text_params text_hi_utf16 (bytes_of "hi")
  = Ok ("000"%byte :: bytes_of "en" ++ bytes_of "hi") ∧
  Z.testbit (byte_to_Z "000"%byte) 7 = false ∧
  _encode_ndef_text_params text_hi_utf8 (bytes_of "hi")
  = Ok ("002"%byte :: bytes_of "en" ++ bytes_of "hi").
Proof. repeat split; reflexivity. Qed.

End NDEF_record.

(** ** The device configuration record *)

Section DEVICE_CONFIG_record.
Import YubiKeyNEO_DEVICE_CONFIG.

Lemma device_config_packs (self : t) :
  0 ≤ _mode self < 256 →
  0 ≤ _cr_timeout self < 256 →
  0 ≤ _auto_eject_time self < 65536 →
  ∃ mode timeout lo hi,
    to_string self = Ok [mode; timeout; lo; hi] ∧
    byte_to_Z mode = _mode self ∧
    byte_to_Z timeout = _cr_timeout self ∧
    byte_to_Z lo = _auto_eject_time self `mod` 256 ∧
    byte_to_Z hi = _auto_eject_time self `div` 256.
Proof.
  intros Hm Ht He. unfold to_string. cbn [struct_pack_le].
  destruct (pack_B_byte _ Hm) as (mode & -> & ?).
  destruct (pack_B_byte _ Ht) as (timeout & -> & ?).
  destruct (pack_H_le _ He) as (lo & hi & -> & ? & ?).
  by exists mode, timeout, lo, hi.
Qed.

(** C6: with mode and timeout in byte range and the eject time in 16-bit
    range, the device configuration serializes to exactly 4 bytes: mode,
    timeout, then the eject time low byte first; mode 0x02, timeout 10,
    eject time 300 give 02 0A 2C 01. *)
Theorem device_config_layout :
  (∀ self : t,
     0 ≤ _mode self < 256 →
     0 ≤ _cr_timeout self < 256 →
     0 ≤ _auto_eject_time self < 65536 →
     ∃ mode timeout lo hi,
       to_string self = Ok [mode; timeout; lo; hi] ∧
       length [mode; timeout; lo; hi] = 4%nat ∧
       byte_to_Z mode = _mode self ∧
       byte_to_Z timeout = _cr_timeout self ∧
       byte_to_Z lo + 256 * byte_to_Z hi = _auto_eject_time self ∧
       0 ≤ byte_to_Z lo < 256) ∧
  to_string device_config_example
  = Ok ["002"%byte; "010"%byte; "044"%byte; "001"%byte].
Proof.
  split; [|reflexivity].
  intros self Hm Ht He.
  destruct (device_config_packs self Hm Ht He)
    as (mode & timeout & lo & hi & Hs & ? & ? & Hlo & Hhi).
  exists mode, timeout, lo, hi. repeat split; try done.
  - rewrite Hlo, Hhi. pose proof (Z.div_mod (_auto_eject_time self) 256). lia.
  - rewrite Hlo. apply Z.mod_pos_bound. lia.
  - rewrite Hlo. apply Z.mod_pos_bound. lia.
Qed.

Lemma device_config_layout_witness :
  ∃ mode timeout lo hi,
    to_string device_config_example = Ok [mode; timeout; lo; hi] ∧
    length [mode; timeout; lo; hi] = 4%nat ∧
    byte_to_Z mode = 2 ∧
    byte_to_Z timeout = 10 ∧
    byte_to_Z lo + 256 * byte_to_Z hi = 300 ∧
    0 ≤ byte_to_Z lo < 256.
Proof.
  apply (proj1 device_config_layout device_config_example);
    vm_compute; split; (discriminate || reflexivity).
Defined.

End DEVICE_CONFIG_record.

(** ** Frames *)

Lemma ndef_to_string_length self out :
  YubiKeyNEO_NDEF.to_string self = Ok out → length out = 62%nat.
Proof.
  unfold YubiKeyNEO_NDEF.to_string.
  destruct (YubiKeyNEO_NDEF.transform self) as [data|e];
    cbv [mbind result_bind]; [|done].
  case_decide; [done|]. intros Hp.
  by rewrite (struct_pack_le_length _ _ _ Hp).
Qed.

Lemma device_config_to_string_length self out :
  YubiKeyNEO_DEVICE_CONFIG.to_string self = Ok out → length out = 4%nat.
Proof.
  unfold YubiKeyNEO_DEVICE_CONFIG.to_string. intros Hp.
  by rewrite (struct_pack_le_length _ _ _ Hp).
Qed.

(** C9: when the record serializes, [to_frame] gives the frame whose command
    is the slot passed (0x08 for an NDEF record and 0x11 for a device
    configuration when none is passed) and whose payload is the serialized
    record followed by zero bytes up to exactly 64 bytes. *)
Theorem to_frame_wraps :
  (∀ (self : YubiKeyNEO_NDEF.t) (slot : option Z) (data : bytes),
     YubiKeyNEO_NDEF.to_string self = Ok data →
     ∃ frame,
       YubiKeyNEO_NDEF.to_frame slot self = Ok frame ∧
       command frame = match slot with Some code => code | None => 0x08 end ∧
       payload frame = data ++ replicate (64 - length data) "000"%byte ∧
       length (payload frame) = 64%nat) ∧
  (∀ (self : YubiKeyNEO_DEVICE_CONFIG.t) (slot : option Z) (data : bytes),
     YubiKeyNEO_DEVICE_CONFIG.to_string self = Ok data →
     ∃ frame,
       YubiKeyNEO_DEVICE_CONFIG.to_frame slot self = Ok frame ∧
       command frame = match slot with Some code => code | None => 0x11 end ∧
       payload frame = data ++ replicate (64 - length data) "000"%byte ∧
       length (payload frame) = 64%nat).
Proof.
  split; intros self slot data Hs.
  - unfold YubiKeyNEO_NDEF.to_frame. rewrite Hs.
    eexists. split; [reflexivity|]. cbn [command payload].
    split; [by destruct slot|]. split; [reflexivity|].
    apply ljust_length. rewrite (ndef_to_string_length _ _ Hs). lia.
  - unfold YubiKeyNEO_DEVICE_CONFIG.to_frame. rewrite Hs.
    eexists. split; [reflexivity|]. cbn [command payload].
    split; [by destruct slot|]. split; [reflexivity|].
    apply ljust_length.
    rewrite (device_config_to_string_length _ _ Hs). lia.
Qed.

Lemma to_frame_wraps_witness :
  (∃ frame,
     YubiKeyNEO_DEVICE_CONFIG.to_frame None device_config_example = Ok frame ∧
     command frame = 0x11 ∧
     payload frame =
       ["002"%byte; "010"%byte; "044"%byte; "001"%byte] ++
       replicate 60 "000"%byte ∧
     length (payload frame) = 64%nat) ∧
  (∃ frame,
     YubiKeyNEO_NDEF.to_frame (Some 0x09)
       (YubiKeyNEO_NDEF.__init__ uri_54 None) = Ok frame ∧
     command frame = 0x09 ∧
     payload frame =
       ("054"%byte :: "U"%byte :: "004"%byte :: replicate 53 "a"%byte ++
        replicate 6 "000"%byte) ++ replicate 2 "000"%byte ∧
     length (payload frame) = 64%nat).
Proof.
  split.
  - apply (proj2 to_frame_wraps device_config_example None
             ["002"%byte; "010"%byte; "044"%byte; "001"%byte]).
    reflexivity.
  - apply (proj1 to_frame_wraps (YubiKeyNEO_NDEF.__init__ uri_54 None)
             (Some 0x09)
             ("054"%byte :: "U"%byte :: "004"%byte ::
              replicate 53 "a"%byte ++ replicate 6 "000"%byte)).
    reflexivity.
Defined.

(** ** The capability predicates *)

Section Capabilities.
Import YubiKeyNEO_USBHIDCapabilities.

Lemma tuple_ge_3_0_0 (major minor patch : Z) :
  tuple_ge [major; minor; patch] [3; 0; 0] = true ↔
  version_ge (major, minor, patch) (3, 0, 0).
Proof.
  unfold tuple_ge, tuple_lt, version_ge. cbn [tuple_compare].
  destruct (Z.compare_spec major 3), (Z.compare_spec minor 0),
    (Z.compare_spec patch 0); simpl; split; intros; try done; lia.
Qed.

(** C7: for every version triple, challenge-response is available exactly
    from 3.0.0 on, slot 1 is always usable and slot 2 exactly from 3.0.0 on,
    NDEF programming is always available, and the device configuration is
    writable exactly from 3.0.0 on; so no device configuration at 2.1.9 but
    at 3.0.0, and no slot 2 at 2.4.3 but at 3.1.0. *)
Theorem capability_gate (major minor patch : Z) :
  (∀ mode, have_challenge_response (caps_of (major, minor, patch)) mode = true
           ↔ version_ge (major, minor, patch) (3, 0, 0)) ∧
  have_configuration_slot (caps_of (major, minor, patch)) 1 = true ∧
  (have_configuration_slot (caps_of (major, minor, patch)) 2 = true ↔
   version_ge (major, minor, patch) (3, 0, 0)) ∧
  have_nfc_ndef (caps_of (major, minor, patch)) = true ∧
  (have_device_config (caps_of (major, minor, patch)) = true ↔
   version_ge (major, minor, patch) (3, 0, 0)) ∧
  have_device_config (caps_of (2, 1, 9)) = false ∧
  have_device_config (caps_of (3, 0, 0)) = true ∧
  have_configuration_slot (caps_of (2, 4, 3)) 2 = false ∧
  have_configuration_slot (caps_of (3, 1, 0)) 2 = true.
Proof.
  pose proof (tuple_ge_3_0_0 major minor patch) as Hge.
  unfold have_challenge_response, have_configuration_slot,
    have_device_config, have_nfc_ndef.
  cbn [caps_of version].
  split; [intros _; exact Hge|].
  split; [by destruct (tuple_lt [major; minor; patch] [3; 0; 0])|].
  split.
  { rewrite <- Hge. unfold tuple_ge.
    by destruct (tuple_lt [major; minor; patch] [3; 0; 0]). }
  split; [reflexivity|].
  split; [exact Hge|].
  repeat split; reflexivity.
Qed.

End Capabilities.

(** * Further properties *)

(** ** The URI identifier code: reach, size, loss *)

Lemma ci_startswith_length prefix payload :
  ci_startswith prefix payload = true →
  length (take (length prefix) payload) = length prefix.
Proof.
  unfold ci_startswith, decode_latin1. intros H%bool_decide_eq_true.
  apply (f_equal length) in H. by rewrite !length_fmap in H.
Qed.

Lemma ci_startswith_app P Q payload :
  ci_startswith (P ++ Q) payload = true → ci_startswith P payload = true.
Proof.
  unfold ci_startswith, decode_latin1. intros H%bool_decide_eq_true.
  apply bool_decide_eq_true.
  apply (f_equal (take (length P))) in H.
  rewrite fmap_app, take_app_length' in H by (by rewrite length_fmap).
  rewrite <- H, <- !fmap_take, take_take, length_app. f_equal. f_equal.
  f_equal. lia.
Qed.

Lemma find_app_first {A} (f : A → bool) (l1 l2 : list A) :
  List.find f (l1 ++ l2) =
    match List.find f l1 with
    | Some x => Some x
    | None => List.find f l2
    end.
Proof. induction l1 as [|x l1 IH]; simpl; [done|]. by destruct (f x). Qed.

(** The entries from [urn:epc:id:] on all start with [urn:], which comes
    before them: the loop never gets to them. *)
Lemma first_match_code_bound payload code P :
  first_match payload = Some (code, P) → 1 ≤ code ≤ 0x1d.
Proof.
  unfold first_match, first_match_in.
  rewrite <- (take_drop 29 uri_identifiers), find_app_first.
  destruct (List.find _ (take 29 uri_identifiers)) as [e|] eqn:Hearly.
  - intros [= ->]. apply List.find_some in Hearly as [Hin _].
    apply list_elem_of_In in Hin.
    assert (Forall (λ e : Z * str, 1 ≤ e.1 ≤ 0x1d) (take 29 uri_identifiers))
      as Hall by (apply (bool_decide_unpack _); vm_compute; exact I).
    rewrite Forall_forall in Hall. apply (Hall _ Hin).
  - intros Hlate. exfalso.
    apply List.find_some in Hlate as [Hin Hm]. apply list_elem_of_In in Hin.
    assert (Forall (λ e : Z * str, take 4 e.2 = str_of "urn:")
              (drop 29 uri_identifiers))
      as Hall by (apply (bool_decide_unpack _); vm_compute; exact I).
    rewrite Forall_forall in Hall. specialize (Hall _ Hin).
    simpl in Hall, Hm.
    rewrite <- (take_drop 4 P), Hall in Hm. apply ci_startswith_app in Hm.
    assert (In (0x13, str_of "urn:") (take 29 uri_identifiers)) as Hurn
      by (apply list_elem_of_In, (bool_decide_unpack _); vm_compute; exact I).
    apply (List.find_none _ _ Hearly) in Hurn. simpl in Hurn. congruence.
Qed.

(** X1: the identifier codes the encoder can emit are exactly 0x00..0x1d.
    The six entries 0x1e..0x23 ([urn:epc:id:] to [urn:nfc:]) are never
    used, as [urn:] (0x13) precedes them in the table and matches first. *)
Theorem encode_uri_emitted_codes (c : Z) :
  (∃ payload b rest,
     YubiKeyNEO_NDEF._encode_ndef_uri_type payload = Ok (b :: rest) ∧
     byte_to_Z b = c) ↔
  0 ≤ c ≤ 0x1d.
Proof.
  split.
  - intros (payload & b & rest & He & <-).
    pose proof (encode_uri_cases payload) as Hc.
    destruct (first_match payload) as [[code P]|] eqn:Hm.
    + destruct Hc as (b' & Hb' & He'). rewrite He in He'.
      injection He' as -> _. rewrite Hb'.
      pose proof (first_match_code_bound _ _ _ Hm). lia.
    + rewrite He in Hc. by injection Hc as -> _.
  - intros Hc.
    assert (forallb (λ c, emits c (sample_uri c)) (seqZ 0 30) = true) as Hall
      by (vm_compute; reflexivity).
    rewrite forallb_forall in Hall.
    assert (emits c (sample_uri c) = true) as Hemit
      by (apply Hall, list_elem_of_In, elem_of_seqZ; lia).
    unfold emits in Hemit.
    destruct (YubiKeyNEO_NDEF._encode_ndef_uri_type (sample_uri c))
      as [[|b rest]|] eqn:He; try discriminate.
    exists (sample_uri c), b, rest. split; [done|].
    by apply bool_decide_eq_true in Hemit.
Qed.

Lemma uri_prefixes_long :
  Forall (λ e : Z * str, 1 ≤ e.1 ∧ (4 ≤ length e.2)%nat) uri_identifiers.
Proof. apply (bool_decide_unpack _). vm_compute. exact I. Qed.

Lemma uri_codes_distinct : NoDup (uri_identifiers.*1).
Proof. apply (bool_decide_unpack _). vm_compute. exact I. Qed.

Lemma assoc_functional {A B} (l : list (A * B)) x y1 y2 :
  NoDup (l.*1) → (x, y1) ∈ l → (x, y2) ∈ l → y1 = y2.
Proof.
  induction l as [|[a b] l IH]; csimpl; [by intros _ ?%elem_of_nil|].
  intros [Hnotin Hnd]%NoDup_cons [H1|H1]%elem_of_cons [H2|H2]%elem_of_cons.
  - congruence.
  - injection H1 as -> ->. destruct Hnotin.
    apply list_elem_of_fmap. by exists (a, y2).
  - injection H2 as -> ->. destruct Hnotin.
    apply list_elem_of_fmap. by exists (a, y1).
  - by apply IH.
Qed.

(** X2: the encoded URI is one code byte and a suffix of the payload.
    Either the code is 0 and the suffix is the whole payload, or the part
    cut off is, in lower case, the table prefix of the code; it is at least
    4 bytes long, so the encoding saves at least 3 bytes. *)
Theorem encode_uri_split (payload : bytes) :
  ∃ b pre rest,
    payload = pre ++ rest ∧
    YubiKeyNEO_NDEF._encode_ndef_uri_type payload = Ok (b :: rest) ∧
    ((byte_to_Z b = 0 ∧ pre = []) ∨
     ((byte_to_Z b, str_lower (decode_latin1 pre)) ∈ uri_identifiers ∧
      (length (b :: rest) + 3 ≤ length payload)%nat)).
Proof.
  pose proof (encode_uri_cases payload) as Hc.
  destruct (first_match payload) as [[code P]|] eqn:Hm.
  - destruct Hc as (b & Hb & He).
    exists b, (take (length P) payload), (drop (length P) payload).
    split; [by rewrite take_drop|]. split; [done|]. right.
    pose proof (first_match_in_elem _ _ _ Hm) as Hin.
    apply List.find_some in Hm as [_ Hci]. simpl in Hci.
    pose proof uri_identifiers_well_formed as Hwf.
    pose proof uri_prefixes_long as Hlong.
    rewrite Forall_forall in Hwf, Hlong.
    destruct (Hwf _ Hin) as [_ Hlow]. destruct (Hlong _ Hin) as [_ H4].
    simpl in *. split.
    + rewrite Hb.
      assert (str_lower (decode_latin1 (take (length P) payload)) = P) as ->.
      { apply lower_vs_casefold; [done|].
        by apply bool_decide_eq_true in Hci. }
      done.
    + pose proof (ci_startswith_length _ _ Hci) as Hlen.
      rewrite length_take in Hlen. rewrite length_drop. lia.
  - exists "000"%byte, [], payload. repeat split; [done|]. by left.
Qed.

Lemma uri_prefixes_distinct : NoDup (uri_identifiers.*2).
Proof. apply (bool_decide_unpack _). vm_compute. exact I. Qed.

Lemma assoc_injective {A B} (l : list (A * B)) x1 x2 y :
  NoDup (l.*2) → (x1, y) ∈ l → (x2, y) ∈ l → x1 = x2.
Proof.
  induction l as [|[a b] l IH]; csimpl; [by intros _ ?%elem_of_nil|].
  intros [Hnotin Hnd]%NoDup_cons [H1|H1]%elem_of_cons [H2|H2]%elem_of_cons.
  - congruence.
  - injection H1 as -> ->. destruct Hnotin.
    apply list_elem_of_fmap. by exists (x2, b).
  - injection H2 as -> ->. destruct Hnotin.
    apply list_elem_of_fmap. by exists (x1, b).
  - by apply IH.
Qed.

(** The encoding in terms of the length of the matched prefix: the bytes
    from there on are kept, the bytes before are, in lower case, the table
    prefix of the code (none for the code 0). *)
Lemma encode_uri_matched (payload : bytes) :
  ∃ b,
    YubiKeyNEO_NDEF._encode_ndef_uri_type payload
    = Ok (b :: drop (matched_len payload) payload) ∧
    ((b = "000"%byte ∧ matched_len payload = 0%nat) ∨
     (1 ≤ byte_to_Z b ∧
      (byte_to_Z b,
       str_lower (decode_latin1 (take (matched_len payload) payload)))
        ∈ uri_identifiers ∧
      (4 ≤ matched_len payload ≤ length payload)%nat)).
Proof.
  pose proof (encode_uri_cases payload) as Hc. unfold matched_len.
  destruct (first_match payload) as [[code P]|] eqn:Hm.
  - destruct Hc as (b & Hb & He). exists b. split; [done|]. right.
    pose proof (first_match_in_elem _ _ _ Hm) as Hin.
    apply List.find_some in Hm as [_ Hci]. simpl in Hci.
    pose proof uri_identifiers_well_formed as Hwf.
    pose proof uri_prefixes_long as Hlong.
    rewrite Forall_forall in Hwf, Hlong.
    destruct (Hwf _ Hin) as [_ Hlow]. destruct (Hlong _ Hin) as [H1 H4].
    simpl in *. rewrite Hb. split; [done|]. split.
    + assert (str_lower (decode_latin1 (take (length P) payload)) = P) as ->;
        [|done].
      apply lower_vs_casefold; [done|]. by apply bool_decide_eq_true in Hci.
    + pose proof (ci_startswith_length _ _ Hci) as Hlen.
      rewrite length_take in Hlen. lia.
  - exists "000"%byte. split; [done|]. by left.
Qed.

(** X3: the encoding loses nothing but the case of the matched prefix: two
    payloads have the same encoding exactly when they are equal after
    their matched prefixes and those prefixes are equal in lower case. *)
Theorem encode_uri_injective_up_to_case (p1 p2 : bytes) :
  YubiKeyNEO_NDEF._encode_ndef_uri_type p1
  = YubiKeyNEO_NDEF._encode_ndef_uri_type p2 ↔
  drop (matched_len p1) p1 = drop (matched_len p2) p2 ∧
  str_lower (decode_latin1 (take (matched_len p1) p1))
  = str_lower (decode_latin1 (take (matched_len p2) p2)).
Proof.
  destruct (encode_uri_matched p1) as (b1 & He1 & H1).
  destruct (encode_uri_matched p2) as (b2 & He2 & H2).
  rewrite He1, He2. split.
  - intros [= Hb Hrest]. split; [done|].
    destruct H1 as [[Hz1 Hm1]|(Hc1 & Hin1 & _)],
      H2 as [[Hz2 Hm2]|(Hc2 & Hin2 & _)].
    + by rewrite Hm1, Hm2.
    + subst. by vm_compute in Hc2.
    + subst. by vm_compute in Hc1.
    + subst b2. by eapply (assoc_functional _ _ _ _ uri_codes_distinct).
  - intros [Hrest Hlow]. rewrite Hrest. do 2 f_equal.
    destruct H1 as [[-> Hm1]|(Hc1 & Hin1 & Hl1)],
      H2 as [[-> Hm2]|(Hc2 & Hin2 & Hl2)].
    + done.
    + apply (f_equal length) in Hlow. rewrite Hm1 in Hlow.
      unfold str_lower, decode_latin1 in Hlow.
      rewrite !length_fmap, !length_take in Hlow. simpl in Hlow. lia.
    + apply (f_equal length) in Hlow. rewrite Hm2 in Hlow.
      unfold str_lower, decode_latin1 in Hlow.
      rewrite !length_fmap, !length_take in Hlow. simpl in Hlow. lia.
    + apply byte_to_Z_inj. rewrite Hlow in Hin1.
      by eapply (assoc_injective _ _ _ _ uri_prefixes_distinct).
Qed.

(** ** The NDEF record: when it serializes, and to what *)

Section NDEF_serialization.
Import YubiKeyNEO_NDEF.

Lemma byte_of_Z_to_Z n b :
  byte_of_Z n = Some b → byte_to_Z b = n ∧ 0 ≤ n < 256.
Proof.
  intros Hb. destruct (decide (0 ≤ n < 256)) as [Hn|Hn].
  - destruct (byte_of_Z_Some n Hn) as (b' & Hb' & Hv). by simplify_eq.
  - rewrite byte_of_Z_None in Hb by done. discriminate.
Qed.

Lemma byte_of_to_Z b : byte_of_Z (byte_to_Z b) = Some b.
Proof.
  unfold byte_of_Z, byte_to_Z. rewrite decide_True by lia.
  rewrite N2Z.id. apply Byte.of_to_N.
Qed.

(** The 54-byte data field and the second half of a serialized record. *)
Lemma to_string_fields self data :
  transform self = Ok data →
  (length data ≤ 54)%nat →
  to_string self =
    match byte_of_Z (Z.of_nat (length data)), byte_of_Z (ndef_type self) with
    | Some blen, Some bty =>
        Ok (blen :: bty :: ljust 54 "000"%byte data ++
            take 6 (access_code self) ++
            replicate (6 - length (access_code self)) "000"%byte)
    | _, _ => Raise struct_error
    end.
Proof.
  intros Ht Hlen. rewrite (to_string_fits self data Ht Hlen).
  cbn [struct_pack_le pack_item].
  destruct (byte_of_Z (Z.of_nat (length data))) as [blen|]; [|done].
  destruct (byte_of_Z (ndef_type self)) as [bty|]; [|done].
  cbv [mbind result_bind mret result_ret].
  rewrite firstn_all2 by (rewrite ljust_length; lia).
  rewrite ljust_length by done. rewrite Nat.sub_diag. simpl.
  by rewrite !app_nil_r.
Qed.

Lemma to_string_ok_inv self out :
  to_string self = Ok out →
  ∃ data blen bty,
    transform self = Ok data ∧ (length data ≤ 54)%nat ∧
    byte_to_Z blen = Z.of_nat (length data) ∧
    byte_to_Z bty = ndef_type self ∧
    out = blen :: bty :: ljust 54 "000"%byte data ++
          take 6 (access_code self) ++
          replicate (6 - length (access_code self)) "000"%byte.
Proof.
  intros Hs. destruct (transform self) as [data|e] eqn:Ht.
  - destruct (decide (length data ≤ 54)%nat) as [Hlen|Hlen].
    + rewrite (to_string_fields self data Ht Hlen) in Hs.
      destruct (byte_of_Z (Z.of_nat (length data))) as [blen|] eqn:Hbl;
        [|done].
      destruct (byte_of_Z (ndef_type self)) as [bty|] eqn:Hbt; [|done].
      injection Hs as <-. exists data, blen, bty.
      apply byte_of_Z_to_Z in Hbl as [? _].
      apply byte_of_Z_to_Z in Hbt as [? _]. done.
    + rewrite (to_string_too_long self data Ht) in Hs by lia. done.
  - unfold to_string in Hs. by rewrite Ht in Hs.
Qed.

(** X4: a record serializes exactly when its transformed data is at most 54
    bytes and its type code is a byte value; the result is then the length,
    the type code, the data zero-filled to 54 bytes and the access code cut
    or zero-filled to 6 bytes, 62 bytes in all whatever the access code. *)
Theorem to_string_ok_iff (self : t) (out : bytes) :
  (to_string self = Ok out ↔
   ∃ data blen bty,
     transform self = Ok data ∧ (length data ≤ 54)%nat ∧
     byte_to_Z blen = Z.of_nat (length data) ∧
     byte_to_Z bty = ndef_type self ∧
     out = blen :: bty :: ljust 54 "000"%byte data ++
           take 6 (access_code self) ++
           replicate (6 - length (access_code self)) "000"%byte) ∧
  (to_string self = Ok out → length out = 62%nat).
Proof.
  split; [split|].
  - apply to_string_ok_inv.
  - intros (data & blen & bty & Ht & Hlen & Hbl & Hbt & ->).
    rewrite (to_string_fields self data Ht Hlen), <- Hbl, <- Hbt.
    by rewrite !byte_of_to_Z.
  - apply ndef_to_string_length.
Qed.

Lemma to_string_ok_iff_witness :
  length ("002"%byte :: "S"%byte :: ljust 54 "000"%byte (bytes_of "hi") ++
          replicate 6 "000"%byte) = 62%nat.
Proof.
  apply (proj2 (to_string_ok_iff
                  (type false false (PyInt 0x53)
                     (__init__ (bytes_of "hi") None)).2 _)).
  reflexivity.
Defined.

(** X5: serialization raises [struct.error] exactly when the data fits and
    the type code is not a byte value; the length is checked first, so a
    record that is too long raises the too-long error whatever its type. *)
Theorem to_string_struct_error_iff (self : t) :
  to_string self = Raise struct_error ↔
  ∃ data, transform self = Ok data ∧ (length data ≤ 54)%nat ∧
          ¬ (0 ≤ ndef_type self < 256).
Proof.
  split.
  - intros Hs. destruct (transform self) as [data|e] eqn:Ht.
    + exists data. split; [done|].
      destruct (decide (length data ≤ 54)%nat) as [Hlen|Hlen].
      * split; [done|]. intros Hty.
        destruct (to_string_succeeds self data Ht Hlen Hty) as [out Ho].
        congruence.
      * rewrite (to_string_too_long self data Ht) in Hs by lia. done.
    + unfold to_string in Hs. rewrite Ht in Hs. injection Hs as ->.
      apply transform_raises in Ht. discriminate.
  - intros (data & Ht & Hlen & Hty).
    rewrite (to_string_fields self data Ht Hlen).
    rewrite (byte_of_Z_None (ndef_type self)) by done.
    by destruct (byte_of_Z (Z.of_nat (length data))).
Qed.

Lemma land_0x80_byte n : 0 ≤ n → 0 ≤ Z.land n 0x80 < 256.
Proof.
  intros Hn.
  assert (0 ≤ Z.land n 0x80) as Hge by (apply Z.land_nonneg; lia).
  split; [done|].
  destruct (decide (Z.land n 0x80 = 0)) as [->|Hnz]; [done|].
  change 256 with (2 ^ 8). apply Z.log2_lt_pow2; [lia|].
  pose proof (Z.log2_land n 0x80 Hn) as Hlog.
  change (Z.log2 0x80) with 7 in Hlog. lia.
Qed.

(** The data of a text record, when the status fits into a byte. *)
Lemma text_transform enc lang self :
  (length lang + length (ndef_str self) ≤ 53)%nat →
  ∃ status,
    transform (text enc lang self) = Ok (status :: lang ++ ndef_str self) ∧
    (enc ≠ str_of "UTF16" → byte_to_Z status = Z.of_nat (length lang)).
Proof.
  intros Hlen. unfold transform. cbn [ndef_type text ndef_str].
  rewrite decide_False by done. rewrite decide_True by done.
  unfold _encode_ndef_text_params. cbn [ndef_text_lang ndef_text_enc text].
  unfold chr_byte. case_decide as Henc.
  - destruct (byte_of_Z_Some (Z.land (Z.of_nat (length lang)) 0x80))
      as (b & -> & _); [apply land_0x80_byte; lia|].
    by exists b.
  - destruct (byte_of_Z_Some (Z.of_nat (length lang)))
      as (b & -> & Hb); [lia|].
    by exists b.
Qed.

(** X6: after [text] with the language tag given as bytes, the record
    serializes exactly when language tag and payload together are at most
    53 bytes (one byte of the 54 is the status), whatever the encoding and
    the access code. *)
Theorem text_record_capacity (enc : str) (lang : bytes) (self : t) :
  (∃ out, to_string (text enc lang self) = Ok out) ↔
  (length lang + length (ndef_str self) ≤ 53)%nat.
Proof.
  split.
  - intros [out Hs].
    apply to_string_ok_inv in Hs as (data & _ & _ & Ht & Hlen & _).
    revert Ht. unfold transform. cbn [ndef_type text ndef_str].
    rewrite decide_False by done. rewrite decide_True by done.
    unfold _encode_ndef_text_params. cbn [ndef_text_lang text].
    unfold chr_byte. destruct (byte_of_Z _) as [b|]; [|done].
    intros [= <-].
    cbn [length] in Hlen. rewrite length_app in Hlen. lia.
  - intros Hlen. destruct (text_transform enc lang self Hlen) as (st & Ht & _).
    apply (to_string_succeeds _ _ Ht).
    + simpl. rewrite length_app. lia.
    + done.
Qed.

Lemma to_string_packs_any_code self data :
  transform self = Ok data →
  (length data ≤ 54)%nat →
  0 ≤ ndef_type self < 256 →
  ∃ blen bty,
    byte_to_Z blen = Z.of_nat (length data) ∧
    byte_to_Z bty = ndef_type self ∧
    to_string self =
      Ok (blen :: bty :: ljust 54 "000"%byte data ++
          take 6 (access_code self) ++
          replicate (6 - length (access_code self)) "000"%byte).
Proof.
  intros Ht Hlen Hty. rewrite (to_string_fields self data Ht Hlen).
  destruct (byte_of_Z_Some (Z.of_nat (length data))) as (blen & -> & ?);
    [lia|].
  destruct (byte_of_Z_Some (ndef_type self) Hty) as (bty & -> & ?).
  by exists blen, bty.
Qed.

(** X7: a text record whose language tag was given as bytes, whose encoding
    is not ['UTF16'] and whose language tag and payload are together at
    most 53 bytes serializes to the length, the
    type byte 'T', then the length of the language tag as status, the tag
    and the payload, zero-filled to 54 bytes, and the access code field. *)
Theorem text_record_layout (enc : str) (lang : bytes) (self : t) :
  enc ≠ str_of "UTF16" →
  (length lang + length (ndef_str self) ≤ 53)%nat →
  ∃ blen status,
    byte_to_Z blen = 1 + Z.of_nat (length lang + length (ndef_str self)) ∧
    byte_to_Z status = Z.of_nat (length lang) ∧
    to_string (text enc lang self) =
      Ok (blen :: "T"%byte ::
          ljust 54 "000"%byte (status :: lang ++ ndef_str self) ++
          take 6 (access_code self) ++
          replicate (6 - length (access_code self)) "000"%byte).
Proof.
  intros Henc Hlen.
  destruct (text_transform enc lang self Hlen) as (status & Ht & Hst).
  destruct (to_string_packs_any_code _ _ Ht) as (blen & bty & Hbl & Hbt & Hs).
  - simpl. rewrite length_app. lia.
  - done.
  - exists blen, status. split.
    + rewrite Hbl. simpl length. rewrite length_app. lia.
    + split; [by apply Hst|].
      by rewrite <- (byte_to_Z_inj bty "T"%byte Hbt).
Qed.

Lemma text_record_layout_witness :
  ∃ blen status,
    byte_to_Z blen = 1 + Z.of_nat (2 + 2) ∧
    byte_to_Z status = 2 ∧
    to_string text_hi_utf8 =
      Ok (blen :: "T"%byte ::
          ljust 54 "000"%byte (status :: bytes_of "en" ++ bytes_of "hi") ++
          replicate 6 "000"%byte).
Proof.
  apply (text_record_layout (str_of "UTF-8") (bytes_of "en")
           (__init__ (bytes_of "hi") None)).
  - vm_compute. discriminate.
  - vm_compute. lia.
Defined.

(** X8: a URI record serializes exactly when the payload is at most 53 bytes
    longer than the table prefix it starts with (53 bytes when it starts
    with none): the prefix costs one byte of the 54. *)
Theorem uri_record_capacity (payload : bytes) (code : option bytes) :
  (∃ out, to_string (__init__ payload code) = Ok out) ↔
  (length payload ≤
     53 + match first_match payload with
          | Some (_, P) => length P
          | None => 0
          end)%nat.
Proof.
  assert (transform (__init__ payload code) = _encode_ndef_uri_type payload)
    as Htr by done.
  pose proof (encode_uri_cases payload) as Hc.
  assert (∃ data, _encode_ndef_uri_type payload = Ok data ∧
            (length data + match first_match payload with
                           | Some (_, P) => length P
                           | None => 0
                           end = S (length payload))%nat)
    as (data & Hd & Hlen).
  { destruct (first_match payload) as [[c P]|] eqn:Hm.
    - destruct Hc as (b & _ & He). eexists. split; [done|].
      apply List.find_some in Hm as [_ Hci].
      apply ci_startswith_length in Hci. simpl in Hci.
      rewrite length_take in Hci. simpl. rewrite length_drop. lia.
    - eexists. split; [done|]. simpl. lia. }
  rewrite Hd in Htr. split.
  - intros [out Hs].
    apply to_string_ok_inv in Hs as (data' & _ & _ & Ht & Hl & _).
    rewrite Htr in Ht. injection Ht as <-. lia.
  - intros Hl. apply (to_string_succeeds _ _ Htr); [lia|done].
Qed.

(** X9: with a numeric type code other than 'U' (0x55) and 'T' (0x54) the
    payload is stored as it is: a payload of at most 54 bytes serializes to
    its length, the code, the payload zero-filled to 54 bytes and the access
    code field.  (The codes 0x55 and 0x54 select the URI and the text
    treatment, like [url] and [text].) *)
Theorem raw_type_stores_payload (code : Z) (self : t) :
  code ≠ 0x55 → code ≠ 0x54 → 0 ≤ code < 256 →
  (length (ndef_str self) ≤ 54)%nat →
  ∃ blen bcode,
    byte_to_Z blen = Z.of_nat (length (ndef_str self)) ∧
    byte_to_Z bcode = code ∧
    to_string (type false false (PyInt code) self).2 =
      Ok (blen :: bcode :: ljust 54 "000"%byte (ndef_str self) ++
          take 6 (access_code self) ++
          replicate (6 - length (access_code self)) "000"%byte).
Proof.
  intros Hu Ht Hcode Hlen.
  apply (to_string_packs_any_code (type false false (PyInt code) self).2);
    [|done|done].
  unfold transform. cbn [type snd set_ndef_type ndef_type ndef_str].
  by rewrite !decide_False by done.
Qed.

Lemma raw_type_stores_payload_witness :
  ∃ blen bcode,
    byte_to_Z blen = 2 ∧ byte_to_Z bcode = 0x53 ∧
    to_string (type false false (PyInt 0x53)
                 (__init__ (bytes_of "hi") None)).2 =
      Ok (blen :: bcode :: ljust 54 "000"%byte (bytes_of "hi") ++
          replicate 6 "000"%byte).
Proof.
  apply (raw_type_stores_payload 0x53 (__init__ (bytes_of "hi") None)).
  - discriminate.
  - discriminate.
  - lia.
  - vm_compute. lia.
Defined.

(** X10: of two [type] calls in a row the last well-formed one decides: it
    leaves the record as if it had been the only call, and a call that
    raises leaves what the call before it left. *)
Theorem type_last_call_wins (self : t) (u1 t1 : bool) (o1 : pyval)
    (u2 t2 : bool) (o2 : pyval) :
  (∀ c, selection u2 t2 o2 = Some c →
     (type u2 t2 o2 (type u1 t1 o1 self).2).2 = (type u2 t2 o2 self).2 ∧
     (type u2 t2 o2 self).2 = set_ndef_type c self) ∧
  (selection u2 t2 o2 = None →
     (type u2 t2 o2 (type u1 t1 o1 self).2).2 = (type u1 t1 o1 self).2).
Proof.
  split.
  - intros c Hsel. apply selection_selects in Hsel.
    destruct Hsel; by destruct u1, t1, o1.
  - intros Hsel. by destruct u2, t2, o2.
Qed.

Lemma type_last_call_wins_witness :
  (type true false PyNone
     (type false false (PyInt 0x53) (__init__ (bytes_of "hi") None)).2).2
  = (type true false PyNone (__init__ (bytes_of "hi") None)).2 ∧
  (type true false PyNone (__init__ (bytes_of "hi") None)).2
  = set_ndef_type 0x55 (__init__ (bytes_of "hi") None).
Proof.
  apply (proj1 (type_last_call_wins (__init__ (bytes_of "hi") None)
                  false false (PyInt 0x53) true false PyNone)).
  reflexivity.
Defined.

(** X11: the language tag and the encoding only matter to a text record:
    after [text], a [type] call that selects any code but 'T' gives a record
    that serializes like the one in which [text] was never called. *)
Theorem text_parameters_only_for_text (enc : str) (lang : bytes) (self : t)
    (u tx : bool) (o : pyval) (c : Z) :
  selection u tx o = Some c → c ≠ 0x54 →
  to_string (type u tx o (text enc lang self)).2
  = to_string (type u tx o self).2.
Proof.
  intros Hsel Hc. apply selection_selects in Hsel.
  destruct Hsel as [| |code]; [done | done |].
  unfold to_string, transform.
  cbn [type snd set_ndef_type text ndef_type ndef_str access_code].
  by rewrite !(decide_False (P := code = _NDEF_TEXT_TYPE)) by done.
Qed.

Lemma text_parameters_only_for_text_witness :
  to_string (type true false PyNone text_hi_utf16).2
  = to_string (type true false PyNone (__init__ (bytes_of "hi") None)).2.
Proof.
  apply (text_parameters_only_for_text (str_of "UTF16") (bytes_of "en")
           (__init__ (bytes_of "hi") None) true false PyNone 0x55).
  - reflexivity.
  - discriminate.
Defined.

End NDEF_serialization.

(** ** The device configuration record: failure and injectivity *)

Section DEVICE_CONFIG_serialization.
Import YubiKeyNEO_DEVICE_CONFIG.

Lemma device_config_raises self :
  ¬ in_range self → to_string self = Raise struct_error.
Proof.
  unfold in_range, to_string. intros Hr. cbn [struct_pack_le pack_item].
  destruct (decide (0 ≤ _mode self < 256)) as [Hm|Hm];
    [|by rewrite (byte_of_Z_None _ Hm)].
  destruct (byte_of_Z_Some _ Hm) as (bm & -> & _).
  destruct (decide (0 ≤ _cr_timeout self < 256)) as [Ht|Ht];
    [|by rewrite (byte_of_Z_None _ Ht)].
  destruct (byte_of_Z_Some _ Ht) as (bt & -> & _).
  rewrite decide_False by tauto. done.
Qed.

(** X12: the device configuration serializes exactly when mode and timeout
    are byte values and the eject time a 16-bit value; any value out of
    range, negative ones included, makes [to_string] raise [struct.error],
    the setters having accepted it. *)
Theorem device_config_ok_iff (self : t) :
  ((∃ out, to_string self = Ok out) ↔ in_range self) ∧
  (to_string self = Raise struct_error ↔ ¬ in_range self).
Proof.
  split; split.
  - intros [out Hs]. destruct (decide (in_range self)) as [|Hr]; [done|].
    rewrite (device_config_raises self Hr) in Hs. done.
  - intros (Hm & Ht & He).
    destruct (device_config_packs self Hm Ht He)
      as (? & ? & ? & ? & -> & _). eauto.
  - intros Hs (Hm & Ht & He).
    destruct (device_config_packs self Hm Ht He)
      as (? & ? & ? & ? & Hs' & _). congruence.
  - apply device_config_raises.
Qed.

Lemma device_config_ok_iff_witness :
  to_string (cr_timeout (-1) (__init__ None)) = Raise struct_error.
Proof.
  apply (proj2 (proj2 (device_config_ok_iff
                         (cr_timeout (-1) (__init__ None))))).
  unfold in_range. vm_compute. intros [_ [[H _] _]]. by apply H.
Defined.

(** X13: the four bytes determine the record: two device configurations
    with the same serialization have the same mode, timeout and eject
    time. *)
Theorem device_config_injective (a b : t) (out : bytes) :
  to_string a = Ok out → to_string b = Ok out → a = b.
Proof.
  intros Ha Hb.
  assert (in_range a) as (Hma & Hta & Hea).
  { destruct (decide (in_range a)) as [|Hr]; [done|].
    rewrite (device_config_raises a Hr) in Ha. done. }
  assert (in_range b) as (Hmb & Htb & Heb).
  { destruct (decide (in_range b)) as [|Hr]; [done|].
    rewrite (device_config_raises b Hr) in Hb. done. }
  destruct (device_config_packs a Hma Hta Hea)
    as (m & t1 & lo & hi & Ha' & Hm & Ht & Hlo & Hhi).
  destruct (device_config_packs b Hmb Htb Heb)
    as (m' & t1' & lo' & hi' & Hb' & Hm' & Ht' & Hlo' & Hhi').
  rewrite Ha in Ha'. rewrite Hb in Hb'. simplify_eq.
  pose proof (Z.div_mod (_auto_eject_time a) 256).
  pose proof (Z.div_mod (_auto_eject_time b) 256).
  destruct a, b; simpl in *. f_equal; lia.
Qed.

Lemma device_config_injective_witness :
  auto_eject_time 300 (cr_timeout 10 (__init__ (Some 0x02)))
  = cr_timeout 10 (auto_eject_time 300 (__init__ (Some 0x02))).
Proof.
  apply (device_config_injective _ _
           ["002"%byte; "010"%byte; "044"%byte; "001"%byte]); reflexivity.
Defined.

End DEVICE_CONFIG_serialization.

(** ** Versions: capabilities, the beta description, the write gate *)

Section Versions.
Import YubiKeyNEO_USBHIDCapabilities.

Lemma tuple_compare_ge_trans (a b c : list Z) :
  tuple_compare a b ≠ Lt → tuple_compare b c ≠ Lt → tuple_compare a c ≠ Lt.
Proof.
  revert b c. induction a as [|x a IH]; intros [|y b] [|z c]; simpl;
    try done.
  destruct (Z.compare_spec x y), (Z.compare_spec y z), (Z.compare_spec x z);
    subst; try done; try lia.
  apply IH.
Qed.

Lemma tuple_ge_trans (a b c : list Z) :
  tuple_ge a b = true → tuple_ge b c = true → tuple_ge a c = true.
Proof.
  unfold tuple_ge, tuple_lt. intros Hab Hbc.
  pose proof (tuple_compare_ge_trans a b c) as Ht.
  destruct (tuple_compare a b), (tuple_compare b c), (tuple_compare a c);
    try done; exfalso; by apply Ht.
Qed.

(** X14: no capability is lost with a later version: whatever the version
    tuples, if [w >= v] then challenge-response, each configuration slot and
    the device configuration are available at [w] when they are at [v]. *)
Theorem capabilities_monotone (v w : list Z) (mode slot : Z) :
  tuple_ge w v = true →
  (have_challenge_response {| version := v |} mode = true →
   have_challenge_response {| version := w |} mode = true) ∧
  (have_configuration_slot {| version := v |} slot = true →
   have_configuration_slot {| version := w |} slot = true) ∧
  (have_device_config {| version := v |} = true →
   have_device_config {| version := w |} = true).
Proof.
  intros Hwv.
  assert (tuple_ge v [3; 0; 0] = true → tuple_ge w [3; 0; 0] = true) as Hup
    by (intros; by eapply tuple_ge_trans).
  unfold have_challenge_response, have_configuration_slot,
    have_device_config. cbn [version].
  split; [done|]. split; [|done].
  unfold tuple_ge in Hup.
  destruct (tuple_lt v [3; 0; 0]), (tuple_lt w [3; 0; 0]); simpl in *;
    try done.
  - intros ->%bool_decide_eq_true. done.
  - intros _. by specialize (Hup eq_refl).
Qed.

Lemma capabilities_monotone_witness :
  (have_challenge_response {| version := [3; 0; 0] |} 0 = true →
   have_challenge_response {| version := [3; 1; 2] |} 0 = true) ∧
  (have_configuration_slot {| version := [3; 0; 0] |} 2 = true →
   have_configuration_slot {| version := [3; 1; 2] |} 2 = true) ∧
  (have_device_config {| version := [3; 0; 0] |} = true →
   have_device_config {| version := [3; 1; 2] |} = true).
Proof.
  apply (capabilities_monotone [3; 0; 0] [3; 1; 2] 0 2). reflexivity.
Defined.

(** X15: only slots 1 and 2 are ever usable: for every version tuple,
    [have_configuration_slot] holds of slot 1, of slot 2 from 3.0.0 on, and
    of no other number. *)
Theorem configuration_slots (v : list Z) (slot : Z) :
  have_configuration_slot {| version := v |} slot = true ↔
  slot = 1 ∨ (slot = 2 ∧ tuple_ge v [3; 0; 0] = true).
Proof.
  unfold have_configuration_slot, tuple_ge. cbn [version].
  destruct (tuple_lt v [3; 0; 0]); simpl.
  - rewrite bool_decide_eq_true. split; [by left|]. by intros [|[_ ?]].
  - rewrite bool_decide_eq_true, !elem_of_cons, elem_of_nil. split.
    + intros [|[|[]]]; [by left | by right].
    + intros [|[? _]]; [by left | right; by left].
Qed.

Lemma tuple_beta_range (major minor patch : Z) :
  tuple_ge [major; minor; patch] [2; 1; 4]
  && tuple_le [major; minor; patch] [2; 1; 9] = true ↔
  major = 2 ∧ minor = 1 ∧ 4 ≤ patch ≤ 9.
Proof.
  unfold tuple_ge, tuple_lt, tuple_le. cbn [tuple_compare].
  destruct (Z.compare_spec major 2), (Z.compare_spec minor 1),
    (Z.compare_spec patch 4), (Z.compare_spec patch 9);
    simpl; split; intros; try done; lia.
Qed.

(** X16: the description becomes 'YubiKey NEO BETA' exactly for the versions
    2.1.4 to 2.1.9, and stays 'YubiKey NEO' for all others; a beta device has
    neither challenge-response nor slot 2 nor a device configuration. *)
Theorem neo_beta_versions (major minor patch : Z) :
  (YubiKeyNEO_USBHID.description [major; minor; patch] = "YubiKey NEO BETA"%string
   ↔ major = 2 ∧ minor = 1 ∧ 4 ≤ patch ≤ 9) ∧
  (YubiKeyNEO_USBHID.description [major; minor; patch] = "YubiKey NEO"%string
   ↔ ¬ (major = 2 ∧ minor = 1 ∧ 4 ≤ patch ≤ 9)) ∧
  (YubiKeyNEO_USBHID.description [major; minor; patch] = "YubiKey NEO BETA"%string
   → have_device_config (caps_of (major, minor, patch)) = false ∧
     have_configuration_slot (caps_of (major, minor, patch)) 2 = false ∧
     ∀ mode,
       have_challenge_response (caps_of (major, minor, patch)) mode = false).
Proof.
  pose proof (tuple_beta_range major minor patch) as Hb.
  unfold YubiKeyNEO_USBHID.description.
  destruct (tuple_ge [major; minor; patch] [2; 1; 4]
            && tuple_le [major; minor; patch] [2; 1; 9]) eqn:Hd.
  - assert (major = 2 ∧ minor = 1 ∧ 4 ≤ patch ≤ 9) as Hr by by apply Hb.
    split; [done|]. split; [split; [done | tauto]|].
    intros _. by destruct Hr as (-> & -> & _).
  - assert (¬ (major = 2 ∧ minor = 1 ∧ 4 ≤ patch ≤ 9)) as Hr
      by (intros Hr; by apply Hb in Hr).
    split; [split; [done | tauto]|]. split; done.
Qed.

Lemma neo_beta_versions_witness :
  have_device_config (caps_of (2, 1, 7)) = false ∧
  have_configuration_slot (caps_of (2, 1, 7)) 2 = false ∧
  ∀ mode, have_challenge_response (caps_of (2, 1, 7)) mode = false.
Proof.
  apply (proj2 (proj2 (neo_beta_versions 2 1 7))). reflexivity.
Defined.

(** X17: on a device below 3.0.0 [write_device_config] ends in the
    [NameError] of the name [yubikey_base] (the version error it means to
    raise is never built) and [_write_config] is not called, so the
    connection is left as it was; from 3.0.0 on the call is
    [_write_config] with the device-configuration slot 0x11. *)
Theorem write_device_config_gate {Device R : Type}
    (_write_config : config → Z → Device → R * Device)
    (major minor patch : Z)
    (device_config : YubiKeyNEO_DEVICE_CONFIG.t) (dev : Device) :
  (¬ version_ge (major, minor, patch) (3, 0, 0) →
   YubiKeyNEO_USBHID.write_device_config _write_config
     (caps_of (major, minor, patch)) device_config dev
   = (NameError "yubikey_base", dev)) ∧
  (version_ge (major, minor, patch) (3, 0, 0) →
   YubiKeyNEO_USBHID.write_device_config _write_config
     (caps_of (major, minor, patch)) device_config dev
   = (Returned (_write_config (config_device device_config) 0x11 dev).1,
      (_write_config (config_device device_config) 0x11 dev).2)).
Proof.
  pose proof (tuple_ge_3_0_0 major minor patch) as Hge.
  unfold YubiKeyNEO_USBHID.write_device_config, have_device_config.
  cbn [caps_of version].
  destruct (tuple_ge [major; minor; patch] [3; 0; 0]); simpl.
  - split; [intros Hn; destruct Hn; by apply Hge|].
    intros _. unfold _SLOT_DEVICE_CONFIG.
    by destruct (_write_config _ _ _).
  - split; [done|]. intros Hv. apply Hge in Hv. done.
Qed.

Lemma write_device_config_gate_witness :
  YubiKeyNEO_USBHID.write_device_config log_write (caps_of (2, 1, 9))
    device_config_example []
  = (NameError "yubikey_base", []) ∧
  YubiKeyNEO_USBHID.write_device_config log_write (caps_of (3, 0, 0))
    device_config_example []
  = (Returned tt, [0x11]).
Proof.
  split.
  - apply (proj1 (write_device_config_gate log_write 2 1 9
                    device_config_example [])).
    vm_compute. intros [H|[H _]]; discriminate.
  - apply (proj2 (write_device_config_gate log_write 3 0 0
                    device_config_example [])).
    vm_compute. right. split; [reflexivity|]. right.
    split; [reflexivity | discriminate].
Defined.

End Versions.

(** ** The catalogue: how the filters combine, what the values encode *)

(** X18: the three flags filter independently: the result for any
    combination is the intersection of the results for each flag alone,
    for the modes and for the product IDs. *)
Theorem filters_intersect (otp ccid u2f : bool) :
  MODE.all otp ccid u2f
  = MODE.all otp false false ∩ MODE.all false ccid false
    ∩ MODE.all false false u2f ∧
  PID.all otp ccid u2f
  = PID.all otp false false ∩ PID.all false ccid false
    ∩ PID.all false false u2f.
Proof. split; destruct otp, ccid, u2f; vm_compute; reflexivity. Qed.

(** X19: asking for more never adds an entry, and no request empties the
    result: the mode OTP_U2F_CCID and the product IDs NEO_OTP_U2F_CCID and
    YK4_OTP_U2F_CCID pass every filter. *)
Theorem filters_monotone (otp ccid u2f otp' ccid' u2f' : bool) :
  (otp = true → otp' = true) →
  (ccid = true → ccid' = true) →
  (u2f = true → u2f' = true) →
  MODE.all otp' ccid' u2f' ⊆ MODE.all otp ccid u2f ∧
  PID.all otp' ccid' u2f' ⊆ PID.all otp ccid u2f ∧
  MODE.OTP_U2F_CCID ∈ MODE.all otp' ccid' u2f' ∧
  PID.NEO_OTP_U2F_CCID ∈ PID.all otp' ccid' u2f' ∧
  PID.YK4_OTP_U2F_CCID ∈ PID.all otp' ccid' u2f'.
Proof.
  intros Ho Hc Hu.
  destruct otp, otp'; try (by specialize (Ho eq_refl));
  destruct ccid, ccid'; try (by specialize (Hc eq_refl));
  destruct u2f, u2f'; try (by specialize (Hu eq_refl));
  apply (bool_decide_unpack _); vm_compute; exact I.
Qed.

Lemma filters_monotone_witness :
  MODE.all true true false ⊆ MODE.all true false false ∧
  PID.all true true false ⊆ PID.all true false false ∧
  MODE.OTP_U2F_CCID ∈ MODE.all true true false ∧
  PID.NEO_OTP_U2F_CCID ∈ PID.all true true false ∧
  PID.YK4_OTP_U2F_CCID ∈ PID.all true true false.
Proof.
  apply (filters_monotone true false false true true false);
    intros; (reflexivity || discriminate).
Defined.

Lemma mode_values (otp ccid u2f : bool) (m : Z) :
  m ∈ MODE.all otp ccid u2f → 0 ≤ m ≤ 6.
Proof.
  intros Hm.
  assert (MODE.all otp ccid u2f ⊆ MODE.all false false false) as Hsub
    by (destruct otp, ccid, u2f; apply (bool_decide_unpack _);
        vm_compute; exact I).
  apply Hsub in Hm. unfold MODE.all in Hm.
  unfold MODE.OTP, MODE.CCID, MODE.OTP_CCID, MODE.U2F, MODE.OTP_U2F,
    MODE.U2F_CCID, MODE.OTP_U2F_CCID in Hm.
  set_unfold. lia.
Qed.

(** X20: every mode the filter returns lies in the mode bits: masking with
    MASK leaves it unchanged, it does not touch FLAG_EJECT, and the mode is
    read back from the mode with the eject flag set by masking. *)
Theorem mode_fits_mask (otp ccid u2f : bool) (m : Z) :
  m ∈ MODE.all otp ccid u2f →
  Z.land m MODE.MASK = m ∧
  Z.land m MODE.FLAG_EJECT = 0 ∧
  Z.land (Z.lor m MODE.FLAG_EJECT) MODE.MASK = m.
Proof.
  intros Hm%mode_values.
  assert (m = 0 ∨ m = 1 ∨ m = 2 ∨ m = 3 ∨ m = 4 ∨ m = 5 ∨ m = 6) as Hcases
    by lia.
  repeat (destruct Hcases as [->|Hcases]; [by vm_compute|]).
  subst. by vm_compute.
Qed.

Lemma mode_fits_mask_witness :
  Z.land MODE.U2F_CCID MODE.MASK = MODE.U2F_CCID ∧
  Z.land MODE.U2F_CCID MODE.FLAG_EJECT = 0 ∧
  Z.land (Z.lor MODE.U2F_CCID MODE.FLAG_EJECT) MODE.MASK = MODE.U2F_CCID.
Proof.
  apply (mode_fits_mask false true true MODE.U2F_CCID).
  apply (bool_decide_unpack _). vm_compute. exact I.
Defined.

(** X21: the product IDs of the YubiKey 4 are 0x0400 plus the YK4_CAPA bits
    of their interfaces: for a bit mask from 1 to 7, the ID 0x0400 + mask
    passes the filter exactly when the mask has every requested bit. *)
Theorem yk4_pid_capability_bits (otp ccid u2f : bool) (mask : Z) :
  1 ≤ mask ≤ 7 →
  (0x0400 + mask ∈ PID.all otp ccid u2f ↔
   Z.land mask (requested_capa otp ccid u2f) = requested_capa otp ccid u2f).
Proof.
  intros Hmask.
  assert (mask = 1 ∨ mask = 2 ∨ mask = 3 ∨ mask = 4 ∨ mask = 5 ∨ mask = 6
          ∨ mask = 7) as Hcases by lia.
  destruct otp, ccid, u2f;
    repeat (destruct Hcases as [->|Hcases];
            [apply (bool_decide_unpack _); vm_compute; exact I|]);
    subst; apply (bool_decide_unpack _); vm_compute; exact I.
Qed.

Lemma yk4_pid_capability_bits_witness :
  PID.YK4_OTP_CCID ∈ PID.all true true false ↔
  Z.land 5 (requested_capa true true false) = requested_capa true true false.
Proof.
  apply (yk4_pid_capability_bits true true false 5). lia.
Defined.

(** ** [command2str] *)

Section Command_names.
Import yubikey_defs.

Lemma known_lookup_other (n : Z) :
  n ∉ [0x01; 0x03; 0x04; 0x05; 0x06] → known !! n = None.
Proof.
  rewrite !not_elem_of_cons. intros (? & ? & ? & ? & ? & _).
  unfold known. by rewrite !lookup_insert_ne, lookup_singleton_ne by done.
Qed.

Lemma known_lookup_some (n : Z) (name : string) :
  known !! n = Some name →
  (n, name) ∈ [(0x01, "SLOT_CONFIG"); (0x03, "SLOT_CONFIG2");
               (0x04, "SLOT_UPDATE1"); (0x05, "SLOT_UPDATE2");
               (0x06, "SLOT_SWAP")]%string.
Proof.
  destruct (decide (n ∈ [0x01; 0x03; 0x04; 0x05; 0x06])) as [Hin|Hout].
  - rewrite !elem_of_cons, elem_of_nil in Hin.
    destruct Hin as [->|[->|[->|[->|[->|[]]]]]]; vm_compute;
      intros [= <-]; set_solver.
  - by rewrite known_lookup_other.
Qed.

Lemma format_02x_reads_back (n : Z) :
  0 ≤ n → HexString.Raw.to_N (format_02x n) 0 = Z.to_N n.
Proof.
  intros Hn. destruct n as [|p|p]; [done| |lia].
  unfold format_02x. cbv zeta.
  destruct (String.length (HexString.Raw.of_pos p "") <? 2)%nat;
    cbn [HexString.Raw.to_N]; rewrite ?HexString.Raw.to_N_of_pos; done.
Qed.

Lemma command2str_fallback (n : Z) :
  known !! n = None →
  command2str n = String "0" (String "x" (format_02x n)).
Proof. unfold command2str. by intros ->. Qed.

Lemma to_Z_0x (s : string) :
  HexString.to_Z (String "0" (String "x" s))
  = Z.of_N (HexString.Raw.to_N s 0).
Proof.
  unfold HexString.to_Z, HexString.to_N. simpl.
  by destruct (HexString.Raw.to_N s 0).
Qed.

Lemma of_pos_all_hex :
  ∀ (p : positive) (rest : string),
    all_hex rest = true → all_hex (HexString.Raw.of_pos p rest) = true.
Proof.
  fix IH 1. intros p rest Hrest.
  do 4 try destruct p as [p|p|]; cbn [HexString.Raw.of_pos];
    try apply IH; cbn; by rewrite ?Hrest.
Qed.

Lemma format_02x_all_hex (n : Z) : 0 ≤ n → all_hex (format_02x n) = true.
Proof.
  intros Hn. destruct n as [|p|p]; [done| |lia].
  unfold format_02x. cbv zeta.
  pose proof (of_pos_all_hex p "" eq_refl) as Hp.
  destruct (String.length (HexString.Raw.of_pos p "") <? 2)%nat; [|done].
  cbn [all_hex]. by rewrite Hp.
Qed.

(** X22: a code that is none of the five known ones is named by its
    hexadecimal value: for a non-negative code the name is [0x] followed by
    digits from [0123456789abcdef] only, which read back as the code, and
    for a byte value it is exactly four characters, [0x] and two digits. *)
Theorem command2str_unknown (n : Z) :
  n ∉ [0x01; 0x03; 0x04; 0x05; 0x06] → 0 ≤ n →
  (∃ digits,
     command2str n = String "0" (String "x" digits) ∧
     all_hex digits = true ∧
     Z.of_N (HexString.Raw.to_N digits 0) = n ∧
     (n < 256 → String.length digits = 2%nat)) ∧
  HexString.to_Z (command2str n) = n ∧
  (n < 256 → String.length (command2str n) = 4%nat).
Proof.
  intros Hout Hn.
  rewrite (command2str_fallback n (known_lookup_other n Hout)).
  assert (n < 256 → String.length (format_02x n) = 2%nat) as Hlen.
  { intros Hlt.
    assert (forallb (λ k, (String.length (format_02x k) =? 2)%nat)
              (seqZ 0 256) = true) as Hall by (vm_compute; reflexivity).
    rewrite forallb_forall in Hall. apply Nat.eqb_eq.
    apply Hall, list_elem_of_In, elem_of_seqZ. lia. }
  split; [|split].
  - exists (format_02x n). split; [done|].
    split; [by apply format_02x_all_hex|].
    split; [|done]. rewrite (format_02x_reads_back n Hn). lia.
  - rewrite to_Z_0x, (format_02x_reads_back n Hn). lia.
  - intros Hlt. cbn [String.length]. by rewrite Hlen.
Qed.

Lemma command2str_unknown_witness :
  (∃ digits,
     command2str 0x0b = String "0" (String "x" digits) ∧
     all_hex digits = true ∧
     Z.of_N (HexString.Raw.to_N digits 0) = 0x0b ∧
     (0x0b < 256 → String.length digits = 2%nat)) ∧
  HexString.to_Z (command2str 0x0b) = 0x0b ∧
  (0x0b < 256 → String.length (command2str 0x0b) = 4%nat).
Proof.
  apply (command2str_unknown 0x0b).
  - apply (bool_decide_unpack _). vm_compute. exact I.
  - lia.
Defined.

(** X23: two different non-negative codes never get the same name: the
    five slot names are pairwise distinct, none of them is a hexadecimal
    name, and the hexadecimal names tell the codes apart. *)
Theorem command2str_distinct (n m : Z) :
  0 ≤ n → 0 ≤ m → n ≠ m → command2str n ≠ command2str m.
Proof.
  intros Hn Hm Hne.
  destruct (known !! n) as [a|] eqn:Ha, (known !! m) as [b|] eqn:Hb;
    rewrite ?(command2str_fallback n), ?(command2str_fallback m) by done;
    unfold command2str; rewrite ?Ha, ?Hb.
  - intros <-. apply known_lookup_some in Ha, Hb.
    rewrite !elem_of_cons, elem_of_nil in Ha, Hb.
    destruct Ha as [Ha|[Ha|[Ha|[Ha|[Ha|[]]]]]];
      destruct Hb as [Hb|[Hb|[Hb|[Hb|[Hb|[]]]]]]; congruence.
  - intros ->. apply known_lookup_some in Ha.
    rewrite !elem_of_cons, elem_of_nil in Ha.
    destruct Ha as [Ha|[Ha|[Ha|[Ha|[Ha|[]]]]]]; discriminate.
  - intros <-. apply known_lookup_some in Hb.
    rewrite !elem_of_cons, elem_of_nil in Hb.
    destruct Hb as [Hb|[Hb|[Hb|[Hb|[Hb|[]]]]]]; discriminate.
  - intros Heq. apply (f_equal HexString.to_Z) in Heq.
    rewrite !to_Z_0x, !format_02x_reads_back in Heq by done. lia.
Qed.

Lemma command2str_distinct_witness :
  command2str SLOT.CONFIG ≠ command2str SLOT.DEVICE_CONFIG.
Proof.
  apply (command2str_distinct SLOT.CONFIG SLOT.DEVICE_CONFIG);
    vm_compute; discriminate.
Defined.

End Command_names.

(** ** The NDEF record: the too-long error against the size of the data *)

Section NDEF_too_long.
Import YubiKeyNEO_NDEF.






End NDEF_too_long.
